(** * knip: resolution and reachability core

    A shallow embedding of [packages/knip/src/typescript/resolveModuleNames.ts]
    and of the path bookkeeping, source analysis glue and symbol-usage queries
    of [packages/knip/src/ProjectPrincipal.ts].

    JavaScript [Set<string>] values are insertion-ordered lists without
    repetition, the module-level [resolutionCache] is a finite map from
    composite keys to an optional resolved module, and every call that
    reaches the file system or a library resolver is recorded as a [Probe]
    next to the value it returns. *)

From Stdlib Require Import String Ascii.
From stdpp Require Import base option list strings gmap.

Local Open Scope string_scope.
Local Open Scope list_scope.

(** ** Strings the way the source uses them *)

Module Js.

(** [s.startsWith(p)] *)
Definition startsWith (s p : string) : bool := String.prefix p s.

(** [s.endsWith(p)] *)
Definition endsWith (s p : string) : bool :=
  String.prefix (String.rev p) (String.rev s).

(** [s.replace(/<suffix>$/, r)] for a literal suffix: the pattern is
    anchored at the end of the string, so at most the last
    [length suffix] characters are replaced. *)
Definition replaceSuffix (s suffix r : string) : string :=
  if endsWith s suffix
  then String.substring 0 (String.length s - String.length suffix) s +:+ r
  else s.

(** [xs.includes(x)] on an array of strings, [set.has(x)] on a [Set]. *)
Definition includes (xs : list string) (x : string) : bool :=
  bool_decide (x ∈ xs).

(** [set.add(x)] on an insertion-ordered [Set<string>]. *)
Definition add (x : string) (xs : list string) : list string :=
  if includes xs x then xs else xs ++ [x].

(** A string in a boolean position: the empty string is falsy. *)
Definition truthy (s : string) : bool :=
  match s with EmptyString => false | _ => true end.

(** An optional boolean property in a boolean position. *)
Definition truthyFlag (b : option bool) : bool := default false b.

End Js.

(** ** Data *)

(** [ts.ResolvedModuleFull]. The two flags are optional properties. *)
Record ResolvedModuleFull := {
  resolvedFileName : string;
  extension : string;
  isExternalLibraryImport : option bool;
  resolvedUsingTsExtension : option bool;
}.

(** The two [System] objects handed to [ts.resolveModuleName]. *)
Inductive Sys := TsSys | CustomSys.

(** What a resolution attempt asks of the outside world. *)
Inductive Probe :=
| ProbeResolveSync (specifier basedir : string)
| ProbeTsResolve (sys : Sys) (specifier containingFile : string)
| ProbeExists (path : string).

(** ** Collaborators that are imported, not defined, by the two files *)

(** [util/path.js] *)
Class PathUtil := {
  dirname : string -> string;
  extname : string -> string;
  isAbsolute : string -> bool;
  isInNodeModules : string -> bool;
  isInternal : string -> bool;
  join : string -> string -> string;
  toPosix : string -> string;
}.

(** [util/modules.js], [typescript/ast-helpers.js], [typescript/utils.js]
    and [constants.js] *)
Class ModuleUtil := {
  sanitizeSpecifier : string -> string;
  isStartsLikePackageName : string -> bool;
  isDeclarationFileExtension : string -> bool;
  ensureRealFilePath : string -> list string -> string;
  isVirtualFilePath : string -> list string -> bool;
  DEFAULT_EXTENSIONS : list string;
  FOREIGN_FILE_EXTENSIONS : list string;
}.

(** [node:fs], [node:module], the [resolve] package and the compiler.
    [resolve_sync] is [None] where [resolve.sync] throws;
    [ts_resolveModuleName] is the [resolvedModule] property of the
    compiler's answer under the resolver's fixed compiler options. *)
Class Host := {
  existsSync : string -> bool;
  isBuiltin : string -> bool;
  resolve_sync : string -> string -> list string -> option string;
  ts_resolveModuleName : Sys -> string -> string -> option ResolvedModuleFull;
}.

(** ** A value together with the probes made to compute it *)

Definition Probed (A : Type) : Type := A * list Probe.

Definition ret {A} (a : A) : Probed A := (a, []).

Definition bind {A B} (m : Probed A) (k : A -> Probed B) : Probed B :=
  let '(a, t1) := m in
  let '(b, t2) := k a in
  (b, t1 ++ t2).

Definition probe {A} (p : Probe) (a : A) : Probed A := (a, [p]).

Declare Scope probed_scope.
Delimit Scope probed_scope with probed.
Notation "'let*' x ':=' m 'in' k" := (bind m (fun x => k))
  (at level 10, x pattern, m at level 100, k at level 200) : probed_scope.

(** ** resolveModuleNames.ts *)

Module Resolver.
Section Resolver.

Context {PU : PathUtil} {MU : ModuleUtil}.
Variable virtualFileExtensions : list string.

Definition extensions : list string :=
  DEFAULT_EXTENSIONS ++ virtualFileExtensions.

Local Open Scope probed_scope.

Definition fileExists {H : Host} (name containingFile : string)
  : Probed (option ResolvedModuleFull) :=
  let resolvedFileName :=
    if isAbsolute name then name else join (dirname containingFile) name in
  let* found := probe (ProbeExists resolvedFileName) (existsSync resolvedFileName) in
  if found
  then ret (Some {| resolvedFileName := resolvedFileName;
                    extension := extname name;
                    isExternalLibraryImport := Some false;
                    resolvedUsingTsExtension := Some false |})
  else ret None.

(** [for (const ext of exts) { const module = fileExists(base + ext, ...);
    if (module) return module; }], [None] when the loop falls through. *)
Fixpoint probeImplementation {H : Host} (exts : list string)
    (base containingFile : string) : Probed (option ResolvedModuleFull) :=
  match exts with
  | [] => ret None
  | ext :: rest =>
      let* module := fileExists (base +:+ ext) containingFile in
      match module with
      | Some m => ret (Some m)
      | None => probeImplementation rest base containingFile
      end
  end.

(** The tail of [resolveModuleName]: the compiler over the custom
    system, a plain existence test, and the translation of a virtual
    path back to the real file. *)
Definition viaCustomSys {H : Host} (sanitizedSpecifier containingFile : string)
  : Probed (option ResolvedModuleFull) :=
  let* customResolvedModule :=
    probe (ProbeTsResolve CustomSys sanitizedSpecifier containingFile)
          (ts_resolveModuleName CustomSys sanitizedSpecifier containingFile) in
  match customResolvedModule with
  | Some m =>
      if isVirtualFilePath (resolvedFileName m) virtualFileExtensions then
        ret (Some {| resolvedFileName :=
                       ensureRealFilePath (resolvedFileName m) virtualFileExtensions;
                     extension := ".js";
                     isExternalLibraryImport := isExternalLibraryImport m;
                     resolvedUsingTsExtension := None |})
      else
        let* module := fileExists sanitizedSpecifier containingFile in
        match module with
        | Some found => ret (Some found)
        | None => ret customResolvedModule
        end
  | None =>
      let* module := fileExists sanitizedSpecifier containingFile in
      match module with
      | Some found => ret (Some found)
      | None => ret None
      end
  end.

(** The branch taken when the compiler resolved to a declaration file
    of the project itself. *)
Definition fromDeclaration {H : Host} (tsResolvedModule : ResolvedModuleFull)
    (containingFile : string) : Probed (option ResolvedModuleFull) :=
  if String.eqb (extension tsResolvedModule) ".d.mts" then
    ret (Some {| resolvedFileName :=
                   Js.replaceSuffix (resolvedFileName tsResolvedModule) ".d.mts" ".mjs";
                 extension := ".mjs";
                 isExternalLibraryImport := Some false;
                 resolvedUsingTsExtension := Some false |})
  else if String.eqb (extension tsResolvedModule) ".d.cts" then
    ret (Some {| resolvedFileName :=
                   Js.replaceSuffix (resolvedFileName tsResolvedModule) ".d.cts" ".cjs";
                 extension := ".cjs";
                 isExternalLibraryImport := Some false;
                 resolvedUsingTsExtension := Some false |})
  else
    let base := Js.replaceSuffix (resolvedFileName tsResolvedModule) ".d.ts" "" in
    let baseExt := extname base in
    if Js.truthy baseExt && Js.includes virtualFileExtensions baseExt then
      ret (Some {| resolvedFileName := ensureRealFilePath base virtualFileExtensions;
                   extension := ".js";
                   isExternalLibraryImport := Some false;
                   resolvedUsingTsExtension := Some false |})
    else
      let* module := probeImplementation [".js"; ".jsx"] base containingFile in
      match module with
      | Some m => ret (Some m)
      | None => ret (Some tsResolvedModule)
      end.

Definition resolveModuleName {H : Host} (name containingFile : string)
  : Probed (option ResolvedModuleFull) :=
  let sanitizedSpecifier := sanitizeSpecifier name in
  if isBuiltin sanitizedSpecifier || isInNodeModules name then ret None
  else
    let* resolved := probe (ProbeResolveSync sanitizedSpecifier (dirname containingFile))
                      (resolve_sync sanitizedSpecifier (dirname containingFile) extensions) in
    match resolved with
    | Some resolved =>
        let resolvedFileName := toPosix resolved in
        let ext := extname resolved in
        let extension :=
          if Js.includes virtualFileExtensions ext then ".js" else ext in
        ret (Some {| resolvedFileName := resolvedFileName;
                     extension := extension;
                     isExternalLibraryImport := Some (isInNodeModules resolvedFileName);
                     resolvedUsingTsExtension := Some false |})
    | None =>
        let* tsResolvedModule :=
          probe (ProbeTsResolve TsSys sanitizedSpecifier containingFile)
                (ts_resolveModuleName TsSys sanitizedSpecifier containingFile) in
        match tsResolvedModule with
        | Some m =>
            if isDeclarationFileExtension (extension m)
               && isInternal (resolvedFileName m)
            then fromDeclaration m containingFile
            else if negb (isVirtualFilePath (resolvedFileName m) virtualFileExtensions)
            then ret (Some m)
            else viaCustomSys sanitizedSpecifier containingFile
        | None => viaCustomSys sanitizedSpecifier containingFile
        end
    end.

(** The module-level [resolutionCache] key of a module name. *)
Definition cacheKey (moduleName containingFile : string) : string :=
  if Js.startsWith moduleName "."
  then join (dirname containingFile) moduleName
  else containingFile +:+ ":" +:+ moduleName.

(** One iteration of [moduleNames.map(...)]: the cache is consulted
    first and filled after a miss. *)
Definition resolveCached {H : Host}
    (resolutionCache : gmap string (option ResolvedModuleFull))
    (moduleName containingFile : string)
  : Probed (option ResolvedModuleFull * gmap string (option ResolvedModuleFull)) :=
  let key := cacheKey moduleName containingFile in
  match resolutionCache !! key with
  | Some cached => ret (cached, resolutionCache)
  | None =>
      let* resolvedModule := resolveModuleName moduleName containingFile in
      ret (resolvedModule, <[key := resolvedModule]> resolutionCache)
  end.

Fixpoint resolveModuleNames {H : Host}
    (resolutionCache : gmap string (option ResolvedModuleFull))
    (moduleNames : list string) (containingFile : string)
  : Probed (list (option ResolvedModuleFull) * gmap string (option ResolvedModuleFull)) :=
  match moduleNames with
  | [] => ret ([], resolutionCache)
  | moduleName :: rest =>
      let* (r, cache1) := resolveCached resolutionCache moduleName containingFile in
      let* (rs, cache2) := resolveModuleNames cache1 rest containingFile in
      ret (r :: rs, cache2)
  end.

(** The cache after a series of calls of the resolver in one run, each
    under the host as it is at that moment. *)
Fixpoint cacheAfter (calls : list (Host * list string * string))
    (resolutionCache : gmap string (option ResolvedModuleFull))
  : gmap string (option ResolvedModuleFull) :=
  match calls with
  | [] => resolutionCache
  | (h, moduleNames, containingFile) :: rest =>
      cacheAfter rest
        (resolveModuleNames (H:=h) resolutionCache moduleNames containingFile).1.2
  end.

End Resolver.
End Resolver.

(** ** ProjectPrincipal.ts *)

(** [ts.ReferencedSymbolEntry] and [ts.ReferencedSymbol], as far as the
    symbol-usage queries read them. *)
Module ReferenceEntry.
Record t := { fileName : string; isDefinition : option bool }.
End ReferenceEntry.

Record ReferencedSymbol := { references : list ReferenceEntry.t }.

Definition FindReferences : Type :=
  string -> nat -> option (list ReferencedSymbol).

(** [SerializableExport] and [SerializableExportMember]: the tags and the
    position are what [ProjectPrincipal] reads. *)
Record SerializableExport := {
  identifier : string;
  jsDocTags : list string;
  pos : nat;
}.

Record SerializableExportMember := {
  member_identifier : string;
  member_jsDocTags : list string;
  member_pos : nat;
}.

Record UnresolvedImport := {
  specifier : string;
  import_pos : option nat;
}.

Record BoundSourceFile := { fileName : string }.

(** [ts.Program], as far as [getProgramSourceFiles] reads it. *)
Record Program := { getSourceFiles : list BoundSourceFile }.

(** The mutable fields of the class; [program] and [findReferences] are
    optional until first use. *)
Record ProjectPrincipal := {
  entryPaths : list string;
  projectPaths : list string;
  skipExportsAnalysis : list string;
  extensions : list string;
  program : option Program;
  findReferences : option FindReferences;
}.

(** What [_getImportsAndExports] hands back. *)
Record ImportsAndExports (ImportMap ExportMap Scripts : Type) := {
  internal : ImportMap;
  unresolved : list UnresolvedImport;
  external : list string;
  exports : ExportMap;
  scripts : Scripts;
}.
Arguments internal {_ _ _} _.
Arguments unresolved {_ _ _} _.
Arguments external {_ _ _} _.
Arguments exports {_ _ _} _.
Arguments scripts {_ _ _} _.

(** The compiler backend and the constructor options of a principal:
    [ts.createProgram] over the fixed options and host (root names, old
    program), [fileManager.getSourceFile], [_getImportsAndExports] (source
    file, current program, [skipExports]), the [isGitIgnored] option, the
    [findReferences] of a fresh language service, and
    [getCompilerExtensions] of [compilers/index.js]. *)
Class Backend (ImportMap ExportMap Scripts Compilers : Type) := {
  tsCreateProgram : list string -> option Program -> Program;
  getSourceFile : string -> option BoundSourceFile;
  _getImportsAndExports :
    BoundSourceFile -> option Program -> bool ->
    ImportsAndExports ImportMap ExportMap Scripts;
  isGitIgnored : string -> bool;
  languageService_findReferences : FindReferences;
  getCompilerExtensions : Compilers -> list string;
}.

Module Principal.
Section Principal.

Context {PU : PathUtil} {MU : ModuleUtil}.
Context {ImportMap ExportMap Scripts Compilers : Type}.
Context {B : Backend ImportMap ExportMap Scripts Compilers}.
Context {H : Host}.
Variable virtualFileExtensions : list string.

Local Open Scope probed_scope.

(** The fields as the class initialises them; the constructor fills
    [extensions] from the defaults and the configured compilers. *)
Definition create (compilers : Compilers) : ProjectPrincipal :=
  {| entryPaths := [];
     projectPaths := [];
     skipExportsAnalysis := [];
     extensions :=
       foldl (fun acc e => Js.add e acc) []
             (DEFAULT_EXTENSIONS ++ getCompilerExtensions compilers);
     program := None;
     findReferences := None |}.

Definition addCompilers (compilers : Compilers) (p : ProjectPrincipal)
  : ProjectPrincipal :=
  {| entryPaths := entryPaths p;
     projectPaths := projectPaths p;
     skipExportsAnalysis := skipExportsAnalysis p;
     extensions :=
       foldl (fun acc e => Js.add e acc) []
             (extensions p ++ getCompilerExtensions compilers);
     program := program p;
     findReferences := findReferences p |}.

Definition createProgram (p : ProjectPrincipal) : ProjectPrincipal :=
  {| entryPaths := entryPaths p;
     projectPaths := projectPaths p;
     skipExportsAnalysis := skipExportsAnalysis p;
     extensions := extensions p;
     program := Some (tsCreateProgram (entryPaths p) (program p));
     findReferences := findReferences p |}.

Definition hasAcceptedExtension (p : ProjectPrincipal) (filePath : string) : bool :=
  Js.includes (extensions p) (extname filePath).

(** [options?.skipExportsAnalysis] is [None] when no options are given. *)
Definition addEntryPath (filePath : string) (options : option bool)
    (p : ProjectPrincipal) : ProjectPrincipal :=
  if negb (isInNodeModules filePath) && hasAcceptedExtension p filePath then
    {| entryPaths := Js.add filePath (entryPaths p);
       projectPaths := Js.add filePath (projectPaths p);
       skipExportsAnalysis :=
         if Js.truthyFlag options
         then Js.add filePath (skipExportsAnalysis p)
         else skipExportsAnalysis p;
       extensions := extensions p;
       program := program p;
       findReferences := findReferences p |}
  else p.

Definition addEntryPaths (filePaths : list string) (options : option bool)
    (p : ProjectPrincipal) : ProjectPrincipal :=
  foldl (fun acc filePath => addEntryPath filePath options acc) p filePaths.

Definition addProjectPath (filePath : string) (p : ProjectPrincipal)
  : ProjectPrincipal :=
  if negb (isInNodeModules filePath) && hasAcceptedExtension p filePath then
    {| entryPaths := entryPaths p;
       projectPaths := Js.add filePath (projectPaths p);
       skipExportsAnalysis := skipExportsAnalysis p;
       extensions := extensions p;
       program := program p;
       findReferences := findReferences p |}
  else p.

(** The calls by which the class changes its path sets and its
    accepted extensions. *)
Inductive PathOp :=
| AddEntryPath (filePath : string) (options : option bool)
| AddEntryPaths (filePaths : list string) (options : option bool)
| AddProjectPath (filePath : string)
| AddCompilers (compilers : Compilers).

Definition applyOp (p : ProjectPrincipal) (op : PathOp) : ProjectPrincipal :=
  match op with
  | AddEntryPath filePath options => addEntryPath filePath options p
  | AddEntryPaths filePaths options => addEntryPaths filePaths options p
  | AddProjectPath filePath => addProjectPath filePath p
  | AddCompilers compilers => addCompilers compilers p
  end.

Definition applyOps (ops : list PathOp) (p : ProjectPrincipal) : ProjectPrincipal :=
  foldl applyOp p ops.

(** The invariant of the data model: entries and export-skipping files
    are project files, and every project file lies outside
    [node_modules] and has an accepted extension. *)
Definition wellFormed (p : ProjectPrincipal) : Prop :=
  entryPaths p ⊆ projectPaths p
  /\ skipExportsAnalysis p ⊆ projectPaths p
  /\ Forall (fun filePath =>
               isInNodeModules filePath = false
               /\ hasAcceptedExtension p filePath = true)
            (projectPaths p).

(** [new Set(program?.getSourceFiles().map(sf => sf.fileName))], read
    only through [has]. *)
Definition getProgramSourceFiles (p : ProjectPrincipal) : list string :=
  match program p with
  | Some prog => map fileName (getSourceFiles prog)
  | None => []
  end.

Definition getUsedResolvedFiles (p : ProjectPrincipal)
  : list string * ProjectPrincipal :=
  let p' := createProgram p in
  let sourceFiles := getProgramSourceFiles p' in
  (List.filter (fun filePath => Js.includes sourceFiles filePath) (projectPaths p'), p').

Definition getUnreferencedFiles (p : ProjectPrincipal) : list string :=
  let sourceFiles := getProgramSourceFiles p in
  List.filter (fun filePath => negb (Js.includes sourceFiles filePath)) (projectPaths p).


(** The running state of the [unresolved.forEach] loop of
    [analyzeSourceFile]: the principal, the shared [resolutionCache],
    the [external] set being extended in place and the fresh
    [unresolvedImports] set. The members of [unresolved] are distinct
    objects, so adding one to [unresolvedImports] appends it. *)
Record Analysis := {
  principal : ProjectPrincipal;
  resolutionCache : gmap string (option ResolvedModuleFull);
  externalImports : list string;
  unresolvedImports : list UnresolvedImport;
}.

(** [this.backend.resolveModuleNames([specifier], filePath)[0]] *)
Definition resolveModule
    (cache : gmap string (option ResolvedModuleFull))
    (specifier filePath : string)
  : Probed (option ResolvedModuleFull * gmap string (option ResolvedModuleFull)) :=
  let* (resolved, cache') :=
    Resolver.resolveModuleNames virtualFileExtensions cache [specifier] filePath in
  ret (match resolved with r :: _ => r | [] => None end, cache').

(** The body of the [unresolved.forEach] callback. *)
Definition analyzeUnresolved (filePath : string) (st : Analysis)
    (unresolvedImport : UnresolvedImport) : Probed Analysis :=
  let specifier := specifier unresolvedImport in
  if Js.startsWith specifier "http" then ret st
  else
    let* (resolvedModule, cache') :=
      resolveModule (resolutionCache st) specifier filePath in
    match resolvedModule with
    | Some m =>
        if Js.truthyFlag (isExternalLibraryImport m) then
          let sanitizedSpecifier := sanitizeSpecifier specifier in
          ret {| principal := principal st;
                 resolutionCache := cache';
                 externalImports := Js.add sanitizedSpecifier (externalImports st);
                 unresolvedImports := unresolvedImports st |}
        else
          let isIgnored := isGitIgnored (resolvedFileName m) in
          ret {| principal :=
                   if negb isIgnored
                   then addEntryPath (resolvedFileName m) (Some true) (principal st)
                   else principal st;
                 resolutionCache := cache';
                 externalImports := externalImports st;
                 unresolvedImports := unresolvedImports st |}
    | None =>
        let sanitizedSpecifier := sanitizeSpecifier specifier in
        if isStartsLikePackageName sanitizedSpecifier then
          ret {| principal := principal st;
                 resolutionCache := cache';
                 externalImports := Js.add sanitizedSpecifier (externalImports st);
                 unresolvedImports := unresolvedImports st |}
        else
          let isIgnored := isGitIgnored (join (dirname filePath) sanitizedSpecifier) in
          let ext := extname sanitizedSpecifier in
          let hasIgnoredExtension := Js.includes FOREIGN_FILE_EXTENSIONS ext in
          ret {| principal := principal st;
                 resolutionCache := cache';
                 externalImports := externalImports st;
                 unresolvedImports :=
                   if negb isIgnored
                      && (negb (Js.truthy ext)
                          || (negb (String.eqb ext ".json") && negb hasIgnoredExtension))
                   then unresolvedImports st ++ [unresolvedImport]
                   else unresolvedImports st |}
    end.

(** The guards on the way to [unresolvedImports.add(unresolvedImport)]
    that do not depend on the outcome of resolution. *)
Definition reportable (filePath : string) (unresolvedImport : UnresolvedImport)
  : bool :=
  let sanitizedSpecifier := sanitizeSpecifier (specifier unresolvedImport) in
  let ext := extname sanitizedSpecifier in
  negb (Js.startsWith (specifier unresolvedImport) "http")
  && negb (isStartsLikePackageName sanitizedSpecifier)
  && negb (isGitIgnored (join (dirname filePath) sanitizedSpecifier))
  && (negb (Js.truthy ext)
      || (negb (String.eqb ext ".json")
          && negb (Js.includes FOREIGN_FILE_EXTENSIONS ext))).

(** [unresolved.forEach(...)] *)
Fixpoint forEachUnresolved (filePath : string) (st : Analysis)
    (unresolved : list UnresolvedImport) : Probed Analysis :=
  match unresolved with
  | [] => ret st
  | unresolvedImport :: rest =>
      let* st' := analyzeUnresolved filePath st unresolvedImport in
      forEachUnresolved filePath st' rest
  end.

(** [analyzeSourceFile]: [inl] carries the message of the thrown
    [Error], [inr] the returned object with the principal and the cache
    as the call leaves them. *)
Definition analyzeSourceFile (filePath : string) (p : ProjectPrincipal)
    (cache : gmap string (option ResolvedModuleFull))
  : Probed (string + ImportsAndExports ImportMap ExportMap Scripts
                     * ProjectPrincipal * gmap string (option ResolvedModuleFull)) :=
  match getSourceFile filePath with
  | None => ret (inl ("Unable to find " +:+ filePath))
  | Some sourceFile =>
      let skipExports := Js.includes (skipExportsAnalysis p) filePath in
      let found := _getImportsAndExports sourceFile (program p) skipExports in
      let* st :=
        forEachUnresolved filePath
          {| principal := p;
             resolutionCache := cache;
             externalImports := external found;
             unresolvedImports := [] |}
          (unresolved found) in
      ret (inr ({| internal := internal found;
                   unresolved := unresolvedImports st;
                   external := externalImports st;
                   exports := exports found;
                   scripts := scripts found |},
                principal st, resolutionCache st))
  end.

(** The lazy [if (!this.findReferences) { ... }] of both queries. *)
Definition ensureFindReferences (p : ProjectPrincipal)
  : FindReferences * ProjectPrincipal :=
  match findReferences p with
  | Some f => (f, p)
  | None =>
      (languageService_findReferences,
       {| entryPaths := entryPaths p;
          projectPaths := projectPaths p;
          skipExportsAnalysis := skipExportsAnalysis p;
          extensions := extensions p;
          program := program p;
          findReferences := Some languageService_findReferences |})
  end.

(** [(referencedSymbols ?? []).flatMap(refs => refs.references)
      .filter(ref => !ref.isDefinition).map(ref => ref.fileName)] *)
Definition referencingFiles (f : FindReferences) (filePath : string) (pos : nat)
  : list string :=
  map ReferenceEntry.fileName
      (List.filter
         (fun ref => negb (Js.truthyFlag (ReferenceEntry.isDefinition ref)))
         (flat_map references (default [] (f filePath pos)))).

(** The predicate handed to [members.filter]. *)
Definition isUnusedMember (f : FindReferences) (filePath : string)
    (member : SerializableExportMember) : bool :=
  if Js.includes (member_jsDocTags member) "@public" then false
  else
    let files := referencingFiles f filePath (member_pos member) in
    let internalRefs := List.filter (fun file => String.eqb file filePath) files in
    let externalRefs := List.filter (fun file => negb (String.eqb file filePath)) files in
    Nat.eqb (length externalRefs) 0 && Nat.eqb (length internalRefs) 0.

Definition findUnusedMembers (filePath : string)
    (members : list SerializableExportMember) (p : ProjectPrincipal)
  : list SerializableExportMember * ProjectPrincipal :=
  let '(f, p') := ensureFindReferences p in
  (List.filter (isUnusedMember f filePath) members, p').

Definition hasReferences (filePath : string) (exportedItem : SerializableExport)
    (p : ProjectPrincipal) : bool * ProjectPrincipal :=
  if Js.includes (jsDocTags exportedItem) "@public" then (false, p)
  else
    let '(f, p') := ensureFindReferences p in
    let files := referencingFiles f filePath (pos exportedItem) in
    let externalRefs := List.filter (fun file => negb (String.eqb file filePath)) files in
    (Nat.ltb 0 (length externalRefs), p').

End Principal.
End Principal.

(** ** The glob helper: gitignore patterns for picomatch *)

Module Glob.

(** What [convertGitignoreToPicomatch] returns; [patterns] is the
    two-element array of the pattern and its extension to what lies
    below. *)
Record Rule := { negated : bool; patterns : list string }.

(** [s.slice(n)] for a count [n] of leading characters. *)
Fixpoint slice (n : nat) (s : string) : string :=
  match n, s with
  | O, _ => s
  | S n', String _ rest => slice n' rest
  | S _, EmptyString => EmptyString
  end.

Definition convertGitignoreToPicomatch (pattern : string) : Rule :=
  let negated :=
    match pattern with String "!"%char _ => true | _ => false end in
  let pattern := if negated then slice 1 pattern else pattern in
  let pattern := if Js.startsWith pattern "*/**/" then slice 5 pattern else pattern in
  let pattern :=
    if Js.startsWith pattern "/" then slice 1 pattern
    else if negb (Js.startsWith pattern "**/") then "**/" +:+ pattern
    else pattern in
  let extPattern :=
    if Js.endsWith pattern "/*" then pattern
    else if Js.endsWith pattern "/" then pattern +:+ "**"
    else pattern +:+ "/**" in
  {| negated := negated; patterns := [pattern; extPattern] |}.

End Glob.

(** ** The commitlint plugin: dependencies named by a configuration *)

Module Commitlint.

(** The parts of a commitlint configuration that [resolveConfig] reads:
    [extends] is one id or an array of ids, [plugins] an array whose
    members are names or plugin objects, [parserPreset] (once awaited) a
    name or an object that may carry a [path]. An absent property is
    [None]. *)
Inductive OneOrMany := One (id : string) | Many (ids : list string).

Inductive PluginEntry := PluginName (name : string) | PluginObject.

Inductive ParserPreset := PresetName (name : string) | PresetObject (path : option string).

Record CommitLintConfig := {
  extends : option OneOrMany;
  plugins : option (list PluginEntry);
  formatter : option string;
  parserPreset : option ParserPreset;
}.

(** The callback mapped over [[config.extends].flat()]. *)
Definition toConfigPackage (id : string) : string :=
  if Js.startsWith id "@" || Js.startsWith id "commitlint-config-"
  then id
  else "commitlint-config-" +:+ id.

Definition resolveConfig (config : CommitLintConfig) : list string :=
  let extendsConfigs :=
    match extends config with
    | Some (One id) => if Js.truthy id then map toConfigPackage [id] else []
    | Some (Many ids) => map toConfigPackage ids
    | None => []
    end in
  let plugins :=
    match plugins config with
    | Some entries =>
        flat_map (fun entry =>
                    match entry with PluginName name => [name] | PluginObject => [] end)
                 entries
    | None => []
    end in
  let formatter :=
    match formatter config with
    | Some name => if Js.truthy name then [name] else []
    | None => []
    end in
  let parserPresetPaths :=
    match parserPreset config with
    | Some (PresetName name) => if Js.truthy name then [name] else []
    | Some (PresetObject (Some path)) => if Js.truthy path then [path] else []
    | Some (PresetObject None) => []
    | None => []
    end in
  extendsConfigs ++ plugins ++ formatter ++ parserPresetPaths.

End Commitlint.

(** ** A concrete project for ground examples *)

Module Sample.

(** [s.includes(sub)] on strings. *)
Definition includesText (s sub : string) : bool :=
  match String.index 0 sub s with Some _ => true | None => false end.

(** [s.split('/')] *)
Fixpoint splitGo (cur s : string) : list string :=
  match s with
  | EmptyString => [String.rev cur]
  | String c rest =>
      if Ascii.eqb c "/"%char
      then String.rev cur :: splitGo EmptyString rest
      else splitGo (String c cur) rest
  end.
Definition split (s : string) : list string := splitGo EmptyString s.

Definition joinWith (sep : string) (segments : list string) : string :=
  match segments with
  | [] => EmptyString
  | first :: rest => foldl (fun acc seg => acc +:+ sep +:+ seg) first rest
  end.

Definition pushSegment (absolute : bool) (stack : list string) (seg : string)
  : list string :=
  if String.eqb seg "" || String.eqb seg "." then stack
  else if String.eqb seg ".." then
    match stack with
    | top :: rest => if String.eqb top ".." then seg :: stack else rest
    | [] => if absolute then [] else [seg]
    end
  else seg :: stack.

Definition normalize (p : string) : string :=
  let absolute := Js.startsWith p "/" in
  let body := joinWith "/" (rev (foldl (pushSegment absolute) [] (split p))) in
  if absolute then "/" +:+ body
  else if String.eqb body "" then "." else body.

Definition basename (p : string) : string :=
  default EmptyString (last (List.filter (fun seg => negb (String.eqb seg "")) (split p))).

(** The text from the last dot of a name whose first character has been
    dropped, or the empty string. *)
Fixpoint extensionFrom (s : string) : string :=
  match s with
  | EmptyString => EmptyString
  | String c rest =>
      let found := extensionFrom rest in
      if Js.truthy found then found
      else if Ascii.eqb c "."%char then s else EmptyString
  end.

(** Modelled from the spec: [util/path.js] is not among the sources.
    Paths are posix paths: a dependency-installation directory is any
    path mentioning [node_modules], an internal id is a relative or
    absolute path outside such a directory, and the extension of a path
    is the text from the last dot of its last segment, a leading dot
    apart. *)
Definition posix : PathUtil :=
  {| dirname p :=
       match rev (split p) with
       | _ :: (_ :: _) as parents =>
           let dir := joinWith "/" (rev parents) in
           if String.eqb dir "" then "/" else dir
       | _ => "."
       end;
     extname p :=
       match basename p with
       | EmptyString => EmptyString
       | String _ rest => extensionFrom rest
       end;
     isAbsolute p := Js.startsWith p "/";
     isInNodeModules p := includesText p "node_modules";
     isInternal id :=
       (Js.startsWith id "." || Js.startsWith id "/")
       && negb (includesText id "node_modules");
     join a b :=
       if String.eqb a "" then normalize b
       else if String.eqb b "" then normalize a
       else normalize (a +:+ "/" +:+ b);
     toPosix p := p |}.

Definition isOneOf (chars : string) (c : ascii) : bool :=
  includesText chars (String c EmptyString).

Fixpoint dropWhile (f : ascii -> bool) (s : string) : string :=
  match s with
  | EmptyString => EmptyString
  | String c rest => if f c then dropWhile f rest else s
  end.

Fixpoint takeUntil (f : ascii -> bool) (s : string) : string :=
  match s with
  | EmptyString => EmptyString
  | String c rest => if f c then EmptyString else String c (takeUntil f rest)
  end.

Definition isAlphaNumeric (c : ascii) : bool :=
  let n := Ascii.nat_of_ascii c in
  (Nat.leb 48 n && Nat.leb n 57)
  || (Nat.leb 65 n && Nat.leb n 90)
  || (Nat.leb 97 n && Nat.leb n 122).

(** Modelled from the spec: [util/modules.js], [typescript/ast-helpers.js],
    [typescript/utils.js] and [constants.js] are not among the sources.
    Sanitizing keeps built-in names and absolute paths and otherwise
    strips loader prefixes and query suffixes; a package name starts
    with a letter or digit, or with a scope; declaration files end in
    [.d.ts], [.d.mts] or [.d.cts]; a virtual path is a registered
    extension followed by [.ts]. *)
Definition modules (builtins : list string) : ModuleUtil :=
  {| sanitizeSpecifier s :=
       if Js.includes builtins s || Js.startsWith s "/" || Js.startsWith s "virtual:"
       then s
       else
         let body := takeUntil (isOneOf "!?:") (dropWhile (isOneOf "?!|-") s) in
         if Js.truthy body then body else s;
     isStartsLikePackageName s :=
       match s with
       | String c rest =>
           isAlphaNumeric c
           || (Ascii.eqb c "@"%char
               && match rest with
                  | String d _ => isAlphaNumeric d || isOneOf "._" d
                  | EmptyString => false
                  end)
       | EmptyString => false
       end;
     isDeclarationFileExtension e := Js.includes [".d.ts"; ".d.mts"; ".d.cts"] e;
     ensureRealFilePath p exts :=
       if existsb (fun e => Js.endsWith p (e +:+ ".ts")) exts
       then Js.replaceSuffix p ".ts" ""
       else p;
     isVirtualFilePath p exts := existsb (fun e => Js.endsWith p (e +:+ ".ts")) exts;
     DEFAULT_EXTENSIONS := [".js"; ".mjs"; ".cjs"; ".jsx"; ".ts"; ".tsx"; ".mts"; ".cts"];
     FOREIGN_FILE_EXTENSIONS :=
       [".avif"; ".css"; ".eot"; ".gif"; ".html"; ".ico"; ".jpeg"; ".jpg"; ".less";
        ".png"; ".sass"; ".scss"; ".sh"; ".svg"; ".ttf"; ".webp"; ".woff"; ".woff2";
        ".yml"; ".yaml"] |}.

(** A host over a fixed list of files: [resolve.sync] finds a relative
    or absolute specifier as it is or with one of the extensions, and
    the compiler answers from a table keyed by system, specifier and
    containing file. *)
Definition host (builtins files : list string)
    (compiler : list (Sys * string * string * ResolvedModuleFull)) : Host :=
  {| existsSync p := Js.includes files p;
     isBuiltin s := Js.includes builtins s;
     resolve_sync s basedir exts :=
       if Js.startsWith s "." || Js.startsWith s "/" then
         let target := if Js.startsWith s "/" then s else @join posix basedir s in
         head (List.filter (Js.includes files) (map (fun e => target +:+ e) ("" :: exts)))
       else None;
     ts_resolveModuleName sys s containingFile :=
       match List.filter
               (fun row =>
                  match row with
                  | (sys', s', f', _) =>
                      match sys, sys' with
                      | TsSys, TsSys | CustomSys, CustomSys => true
                      | _, _ => false
                      end && String.eqb s s' && String.eqb containingFile f'
                  end) compiler with
       | (_, _, _, m) :: _ => Some m
       | [] => None
       end |}.

(** A backend over a table of analysed files: the program holds its
    roots, a file's unresolved imports come from the table, and the
    ignore predicate and the reference finder are given. *)
Definition backend (sources : list (string * list UnresolvedImport))
    (ignored : list string) (finder : FindReferences)
  : Backend unit unit unit (list string) :=
  {| tsCreateProgram roots _ := {| getSourceFiles := map Build_BoundSourceFile roots |};
     getSourceFile p :=
       if Js.includes (map fst sources) p then Some {| fileName := p |} else None;
     _getImportsAndExports sourceFile _ _ :=
       {| internal := tt;
          unresolved :=
            match List.filter (fun row => String.eqb (fst row) (fileName sourceFile)) sources with
            | (_, found) :: _ => found
            | [] => []
            end;
          external := [];
          exports := tt;
          scripts := tt |};
     isGitIgnored p := Js.includes ignored p;
     languageService_findReferences := finder;
     getCompilerExtensions exts := exts |}.

(** *** The project *)

Definition builtins : list string := ["fs"; "path"; "node:fs"; "node:path"].

(** Registered non-native extensions, as compiler extensions and as
    the virtual file extensions of the resolver. *)
Definition compilerExtensions : list string := [".vue"].

Definition files : list string :=
  ["/p/src/index.ts"; "/p/src/util.ts"; "/p/src/a.d.mts"; "/p/src/data.txt";
   "/p/types/c.d.ts"; "/p/types/c.js"; "/p/dist/gen.js"; "/p/bin/tool"].

Definition declarationA : ResolvedModuleFull :=
  {| resolvedFileName := "/p/src/a.d.mts";
     extension := ".d.mts";
     isExternalLibraryImport := Some false;
     resolvedUsingTsExtension := Some false |}.

Definition declarationC : ResolvedModuleFull :=
  {| resolvedFileName := "/p/types/c.d.ts";
     extension := ".d.ts";
     isExternalLibraryImport := Some false;
     resolvedUsingTsExtension := Some false |}.

Definition moduleUtil : ModuleUtil := modules builtins.

Definition project : Host :=
  host builtins files
       [(TsSys, "./a.mjs", "/p/src/index.ts", declarationA);
        (TsSys, "#types/c", "/p/src/index.ts", declarationC)].

Definition import (specifier : string) (at_ : nat) : UnresolvedImport :=
  {| specifier := specifier; import_pos := Some at_ |}.

Definition indexImports : list UnresolvedImport :=
  [import "./util" 0; import "./a.mjs" 1; import "#types/c" 2;
   import "./data.txt" 3; import "../dist/gen" 4; import "./style.css" 5;
   import "./missing" 6; import "not-exist" 7;
   import "https://deno.land/x/mod.ts" 8; import "http://cdn.example.com/lib.js" 9;
   import "http-proxy" 10; import "fs" 11].

(** Position 13 of [/p/src/lib.ts] is referenced from another file and
    at its own definition; nothing else is referenced. *)
Definition finder : FindReferences :=
  fun filePath pos =>
    if String.eqb filePath "/p/src/lib.ts" && Nat.eqb pos 13 then
      Some [{| references :=
                 [{| ReferenceEntry.fileName := "/p/src/lib.ts";
                     ReferenceEntry.isDefinition := Some true |};
                  {| ReferenceEntry.fileName := "/p/src/index.ts";
                     ReferenceEntry.isDefinition := None |}] |}]
    else None.

Definition compiler : Backend unit unit unit (list string) :=
  backend [("/p/src/index.ts", indexImports)] ["/p/dist/gen.js"] finder.

Definition principal0 : ProjectPrincipal :=
  Principal.applyOps (PU:=posix) (B:=compiler)
    [Principal.AddEntryPath "/p/src/index.ts" None;
     Principal.AddProjectPath "/p/src/unused.ts"]
    (Principal.create (MU:=moduleUtil) (B:=compiler) compilerExtensions).

Definition start : Principal.Analysis :=
  {| Principal.principal := principal0;
     Principal.resolutionCache := ∅;
     Principal.externalImports := [];
     Principal.unresolvedImports := [] |}.

Definition publicExport : SerializableExport :=
  {| identifier := "api"; jsDocTags := ["@public"]; pos := 13 |}.

Definition publicMember : SerializableExportMember :=
  {| member_identifier := "Api.version";
     member_jsDocTags := ["@public"];
     member_pos := 21 |}.

Definition plainExport : SerializableExport :=
  {| identifier := "helper"; jsDocTags := []; pos := 13 |}.

(** The same project with a library installed, which the compiler
    resolves to its declaration file inside [node_modules]. *)
Definition libraryModule : ResolvedModuleFull :=
  {| resolvedFileName := "/p/node_modules/lodash/index.d.ts";
     extension := ".d.ts";
     isExternalLibraryImport := Some true;
     resolvedUsingTsExtension := Some false |}.

Definition projectWithLibrary : Host :=
  host builtins ("/p/node_modules/lodash/index.d.ts" :: files)
       [(TsSys, "lodash", "/p/src/index.ts", libraryModule)].

(** A second file with two unresolved imports, and a backend that
    knows only this file. *)
Definition smallImports : list UnresolvedImport :=
  [import "./missing" 0; import "./util" 1].

Definition smallCompiler : Backend unit unit unit (list string) :=
  backend [("/p/src/small.ts", smallImports)] ["/p/dist/gen.js"] finder.

Definition commitlintConfig : Commitlint.CommitLintConfig :=
  {| Commitlint.extends := Some (Commitlint.Many ["conventional"; "@acme/commitlint"]);
     Commitlint.plugins := Some [Commitlint.PluginName "commitlint-plugin-x";
                                 Commitlint.PluginObject];
     Commitlint.formatter := None;
     Commitlint.parserPreset := Some (Commitlint.PresetObject (Some "./preset.js")) |}.

End Sample.

(** * Properties *)

(** ** Probed computations *)

Lemma bind_ret_l {A B} (a : A) (k : A -> Probed B) : bind (ret a) k = k a.
Proof. unfold bind, ret. destruct (k a) as [b t]. reflexivity. Qed.

Lemma bind_probe {A B} (p : Probe) (a : A) (k : A -> Probed B) :
  bind (probe p a) k = ((k a).1, p :: (k a).2).
Proof. unfold bind, probe. destruct (k a) as [b t]. reflexivity. Qed.

Lemma bind_fst {A B} (m : Probed A) (k : A -> Probed B) :
  (bind m k).1 = (k m.1).1.
Proof. destruct m as [a t]. unfold bind. simpl. destruct (k a). reflexivity. Qed.

Lemma bind_snd {A B} (m : Probed A) (k : A -> Probed B) :
  (bind m k).2 = m.2 ++ (k m.1).2.
Proof. destruct m as [a t]. unfold bind. simpl. destruct (k a). reflexivity. Qed.

(** ** Strings and sets *)

Lemma includes_true (xs : list string) (x : string) :
  Js.includes xs x = true <-> x ∈ xs.
Proof. unfold Js.includes. rewrite bool_decide_eq_true. reflexivity. Qed.

Lemma includes_false (xs : list string) (x : string) :
  Js.includes xs x = false <-> x ∉ xs.
Proof. unfold Js.includes. rewrite bool_decide_eq_false. reflexivity. Qed.

Lemma elem_of_add (x y : string) (xs : list string) :
  y ∈ Js.add x xs <-> y = x \/ y ∈ xs.
Proof.
  unfold Js.add. destruct (Js.includes xs x) eqn:E.
  - apply includes_true in E. split; [auto | intros [-> | ?]; assumption].
  - rewrite elem_of_app, list_elem_of_singleton. tauto.
Qed.

Lemma add_NoDup (x : string) (xs : list string) : NoDup xs -> NoDup (Js.add x xs).
Proof.
  intros Hnd. unfold Js.add. destruct (Js.includes xs x) eqn:E; [assumption |].
  apply includes_false in E. apply NoDup_app. split; [assumption |]. split.
  - intros y Hy Hy'. apply list_elem_of_singleton in Hy'. subst. contradiction.
  - apply NoDup_singleton.
Qed.

Lemma prefix_trans (a b s : string) :
  String.prefix a b = true -> String.prefix b s = true -> String.prefix a s = true.
Proof.
  revert b s. induction a as [| c a IH]; intros b s Hab Hbs.
  - destruct s; reflexivity.
  - destruct b as [| d b]; [discriminate |].
    destruct s as [| e s]; [discriminate |].
    simpl in *.
    destruct (ascii_dec c d) as [-> |]; [| discriminate].
    destruct (ascii_dec d e) as [-> |]; [| discriminate].
    destruct (ascii_dec e e); [| congruence]. eauto.
Qed.

Lemma startsWith_http (s : string) :
  Js.startsWith s "http:" = true -> Js.startsWith s "http" = true.
Proof. unfold Js.startsWith. apply prefix_trans. reflexivity. Qed.

(** ** The specifier resolver *)

Section ResolverFacts.

Context {PU : PathUtil} {MU : ModuleUtil}.
Variable virtualFileExtensions : list string.

Local Abbreviation resolveModuleName := (Resolver.resolveModuleName virtualFileExtensions).
Local Abbreviation resolveCached := (Resolver.resolveCached virtualFileExtensions).
Local Abbreviation resolveModuleNames := (Resolver.resolveModuleNames virtualFileExtensions).
Local Abbreviation cacheAfter := (Resolver.cacheAfter virtualFileExtensions).
Local Abbreviation cacheKey := Resolver.cacheKey.

(** C9. A specifier whose sanitized form names a built-in module of the
    host, and a specifier that lies inside [node_modules], resolve to
    [undefined], and nothing is asked of the file system, of the
    [resolve] package or of the compiler on the way. *)
Theorem resolveModuleName_builtin_or_installed
    {H : Host} (name containingFile : string) :
  isBuiltin (sanitizeSpecifier name) = true \/ isInNodeModules name = true ->
  resolveModuleName name containingFile = (None, []).
Proof.
  intros Hguard. unfold Resolver.resolveModuleName.
  assert (isBuiltin (sanitizeSpecifier name) || isInNodeModules name = true) as ->.
  { destruct Hguard as [-> | ->]; [reflexivity | apply orb_true_r]. }
  reflexivity.
Qed.

(** *** The cache *)

Lemma resolveCached_hit {H : Host} cache moduleName containingFile cached :
  cache !! cacheKey moduleName containingFile = Some cached ->
  resolveCached cache moduleName containingFile = ((cached, cache), []).
Proof. intros Hhit. unfold Resolver.resolveCached. rewrite Hhit. reflexivity. Qed.

Lemma resolveCached_fills {H : Host} cache moduleName containingFile :
  let out := (resolveCached cache moduleName containingFile).1 in
  cache ⊆ out.2 /\ out.2 !! cacheKey moduleName containingFile = Some out.1.
Proof.
  unfold Resolver.resolveCached.
  destruct (cache !! cacheKey moduleName containingFile) as [cached |] eqn:Hlook; simpl.
  - split; [reflexivity | assumption].
  - rewrite bind_fst. simpl. split.
    + apply insert_subseteq. assumption.
    + apply lookup_insert_eq.
Qed.

Lemma resolveModuleNames_cons {H : Host} cache moduleName rest containingFile :
  let one := (resolveCached cache moduleName containingFile).1 in
  let others := (resolveModuleNames one.2 rest containingFile).1 in
  (resolveModuleNames cache (moduleName :: rest) containingFile).1
  = (one.1 :: others.1, others.2).
Proof.
  simpl. rewrite bind_fst.
  destruct (resolveCached cache moduleName containingFile).1 as [r cache1]. simpl.
  rewrite bind_fst.
  destruct (resolveModuleNames cache1 rest containingFile).1 as [rs cache2].
  reflexivity.
Qed.

(** The cache only grows, and after a call it holds every answer the
    call gave. *)
Lemma resolveModuleNames_fills {H : Host} moduleNames containingFile cache :
  let out := (resolveModuleNames cache moduleNames containingFile).1 in
  cache ⊆ out.2
  /\ Forall2 (fun moduleName r => out.2 !! cacheKey moduleName containingFile = Some r)
             moduleNames out.1.
Proof.
  revert cache. induction moduleNames as [| moduleName rest IH]; intros cache.
  - simpl. split; [reflexivity | constructor].
  - cbv zeta. rewrite resolveModuleNames_cons. cbv zeta. simpl.
    pose proof (resolveCached_fills cache moduleName containingFile) as [Hsub Hkey].
    cbv zeta in Hsub, Hkey.
    specialize (IH (resolveCached cache moduleName containingFile).1.2).
    cbv zeta in IH. destruct IH as [Hsub' Hall].
    split; [etrans; eassumption |].
    constructor; [| assumption].
    eapply lookup_weaken; eassumption.
Qed.

Lemma cacheAfter_grows calls cache : cache ⊆ cacheAfter calls cache.
Proof.
  revert cache. induction calls as [| [[h moduleNames] containingFile] rest IH];
    intros cache; simpl; [reflexivity |].
  etrans; [| apply IH].
  apply (resolveModuleNames_fills (H:=h)).
Qed.

Lemma resolveModuleNames_all_cached {H : Host} moduleNames containingFile cache rs :
  Forall2 (fun moduleName r => cache !! cacheKey moduleName containingFile = Some r)
          moduleNames rs ->
  resolveModuleNames cache moduleNames containingFile = ((rs, cache), []).
Proof.
  induction 1 as [| moduleName r rest rs Hhit _ IH]; [reflexivity |].
  simpl. rewrite (resolveCached_hit _ _ _ _ Hhit). unfold bind at 1.
  change (ret (r, cache)) with ((r, cache), @nil Probe).
  cbv beta iota. rewrite IH. reflexivity.
Qed.

(** C3. Within one run, asking again for the same module names from the
    same containing file gives the answers of the first call: whatever
    calls were made in between and whatever the hosts answer by then,
    the repeat makes no probe and leaves the cache as it is, so no
    composite key is resolved a second time. *)
Theorem resolveModuleNames_repeat
    (first later : Host) (between : list (Host * list string * string))
    (cache : gmap string (option ResolvedModuleFull))
    (moduleNames : list string) (containingFile : string) :
  let out := (Resolver.resolveModuleNames (H:=first) virtualFileExtensions
                cache moduleNames containingFile).1 in
  let cache' := cacheAfter between out.2 in
  Resolver.resolveModuleNames (H:=later) virtualFileExtensions
    cache' moduleNames containingFile
  = ((out.1, cache'), []).
Proof.
  cbv zeta. apply resolveModuleNames_all_cached.
  pose proof (resolveModuleNames_fills (H:=first) moduleNames containingFile cache)
    as [_ Hall]. cbv zeta in Hall.
  eapply Forall2_impl; [exact Hall |].
  intros moduleName r Hhit. simpl in Hhit.
  eapply lookup_weaken; [exact Hhit | apply cacheAfter_grows].
Qed.

(** *** Declaration files *)

Lemma fileExists_fst {H : Host} name containingFile :
  let onDisk := if isAbsolute name then name else join (dirname containingFile) name in
  (Resolver.fileExists name containingFile).1
  = if existsSync onDisk
    then Some {| resolvedFileName := onDisk;
                 extension := extname name;
                 isExternalLibraryImport := Some false;
                 resolvedUsingTsExtension := Some false |}
    else None.
Proof.
  cbv zeta. unfold Resolver.fileExists. rewrite bind_probe. simpl.
  destruct (existsSync _); reflexivity.
Qed.

(** C2, as the code has it. When the specifier is neither built-in nor
    inside [node_modules], file-system resolution fails and the compiler
    answers with a declaration file of the project: a [.d.mts] answer
    becomes the same path ending in [.mjs] and a [.d.cts] answer the
    same path ending in [.cjs], neither looked for on disk; for any
    other declaration file the [.d.ts] suffix is stripped, a stripped
    path with a registered virtual extension is mapped to its real
    file, and otherwise the stripped path is looked for with [.js] and
    then [.jsx] appended, the first that exists being the result and
    the declaration file itself when neither does. *)
Theorem resolveModuleName_declaration
    {H : Host} (name containingFile : string) (m : ResolvedModuleFull) :
  isBuiltin (sanitizeSpecifier name) = false ->
  isInNodeModules name = false ->
  resolve_sync (sanitizeSpecifier name) (dirname containingFile)
               (Resolver.extensions virtualFileExtensions) = None ->
  ts_resolveModuleName TsSys (sanitizeSpecifier name) containingFile = Some m ->
  isDeclarationFileExtension (extension m) = true ->
  isInternal (resolvedFileName m) = true ->
  let onDisk p := if isAbsolute p then p else join (dirname containingFile) p in
  let implementation fileName ext :=
    Some {| resolvedFileName := fileName;
            extension := ext;
            isExternalLibraryImport := Some false;
            resolvedUsingTsExtension := Some false |} in
  let base := Js.replaceSuffix (resolvedFileName m) ".d.ts" "" in
  (resolveModuleName name containingFile).1
  = if String.eqb (extension m) ".d.mts" then
      implementation (Js.replaceSuffix (resolvedFileName m) ".d.mts" ".mjs") ".mjs"
    else if String.eqb (extension m) ".d.cts" then
      implementation (Js.replaceSuffix (resolvedFileName m) ".d.cts" ".cjs") ".cjs"
    else if Js.truthy (extname base) && Js.includes virtualFileExtensions (extname base) then
      implementation (ensureRealFilePath base virtualFileExtensions) ".js"
    else if existsSync (onDisk (base +:+ ".js")) then
      implementation (onDisk (base +:+ ".js")) (extname (base +:+ ".js"))
    else if existsSync (onDisk (base +:+ ".jsx")) then
      implementation (onDisk (base +:+ ".jsx")) (extname (base +:+ ".jsx"))
    else Some m.
Proof.
  intros Hbuiltin Hinstalled Hsync Hts Hdecl Hinternal. cbv zeta.
  unfold Resolver.resolveModuleName.
  rewrite Hbuiltin, Hinstalled. simpl orb. cbv iota.
  rewrite bind_probe, Hsync. cbn [fst].
  rewrite bind_probe, Hts. cbn [fst].
  rewrite Hdecl, Hinternal. simpl andb. cbv iota.
  unfold Resolver.fromDeclaration.
  destruct (String.eqb (extension m) ".d.mts"); [reflexivity |].
  destruct (String.eqb (extension m) ".d.cts"); [reflexivity |].
  cbv zeta.
  destruct (Js.truthy _ && Js.includes _ _); [reflexivity |].
  rewrite bind_fst. cbn [Resolver.probeImplementation].
  rewrite bind_fst, fileExists_fst. cbv zeta.
  destruct (existsSync _); [reflexivity |].
  rewrite bind_fst, fileExists_fst. cbv zeta.
  destruct (existsSync _); reflexivity.
Qed.

End ResolverFacts.

(** ** Entry paths, project paths and the program *)

Section PathFacts.

Context {PU : PathUtil} {MU : ModuleUtil}.
Context {ImportMap ExportMap Scripts Compilers : Type}.
Context {B : Backend ImportMap ExportMap Scripts Compilers}.

Import Principal.

Lemma elem_of_foldl_add (y : string) (new acc : list string) :
  y ∈ foldl (fun acc e => Js.add e acc) acc new <-> y ∈ acc \/ y ∈ new.
Proof.
  revert acc. induction new as [| e new IH]; intros acc; simpl.
  - rewrite elem_of_nil. tauto.
  - rewrite IH, elem_of_add, elem_of_cons. tauto.
Qed.

Lemma addEntryPath_rejects filePath options p :
  isInNodeModules filePath = true \/ hasAcceptedExtension p filePath = false ->
  addEntryPath filePath options p = p.
Proof.
  intros Hrej. unfold addEntryPath.
  destruct Hrej as [-> | ->]; [reflexivity |].
  rewrite andb_false_r. reflexivity.
Qed.

Lemma addProjectPath_rejects filePath p :
  isInNodeModules filePath = true \/ hasAcceptedExtension p filePath = false ->
  addProjectPath filePath p = p.
Proof.
  intros Hrej. unfold addProjectPath.
  destruct Hrej as [-> | ->]; [reflexivity |].
  rewrite andb_false_r. reflexivity.
Qed.

Lemma create_wellFormed compilers : wellFormed (create compilers).
Proof.
  unfold wellFormed, create. simpl.
  split; [reflexivity |]. split; [reflexivity | constructor].
Qed.

Lemma addEntryPath_wellFormed filePath options p :
  wellFormed p -> wellFormed (addEntryPath filePath options p).
Proof.
  intros (Hentry & Hskip & Hall). unfold addEntryPath.
  destruct (negb (isInNodeModules filePath) && hasAcceptedExtension p filePath) eqn:Hok;
    [| repeat split; assumption].
  apply andb_true_iff in Hok as [Hout Hext]. apply negb_true_iff in Hout.
  unfold wellFormed. simpl. repeat split.
  - intros x. rewrite !elem_of_add. intros [-> | Hx]; [left; reflexivity |].
    right. apply Hentry, Hx.
  - destruct (Js.truthyFlag options).
    + intros x. rewrite !elem_of_add. intros [-> | Hx]; [left; reflexivity |].
      right. apply Hskip, Hx.
    + intros x Hx. apply elem_of_add. right. apply Hskip, Hx.
  - apply Forall_forall. intros x Hx. apply elem_of_add in Hx as [-> | Hx].
    + split; assumption.
    + rewrite Forall_forall in Hall. apply (Hall x Hx).
Qed.

Lemma addProjectPath_wellFormed filePath p :
  wellFormed p -> wellFormed (addProjectPath filePath p).
Proof.
  intros (Hentry & Hskip & Hall). unfold addProjectPath.
  destruct (negb (isInNodeModules filePath) && hasAcceptedExtension p filePath) eqn:Hok;
    [| repeat split; assumption].
  apply andb_true_iff in Hok as [Hout Hext]. apply negb_true_iff in Hout.
  unfold wellFormed. simpl. repeat split.
  - intros x Hx. apply elem_of_add. right. apply Hentry, Hx.
  - intros x Hx. apply elem_of_add. right. apply Hskip, Hx.
  - apply Forall_forall. intros x Hx. apply elem_of_add in Hx as [-> | Hx].
    + split; assumption.
    + rewrite Forall_forall in Hall. apply (Hall x Hx).
Qed.

Lemma addEntryPaths_wellFormed filePaths options p :
  wellFormed p -> wellFormed (addEntryPaths filePaths options p).
Proof.
  unfold addEntryPaths. revert p.
  induction filePaths as [| filePath rest IH]; intros p Hwf; simpl; [assumption |].
  apply IH, addEntryPath_wellFormed, Hwf.
Qed.

Lemma addCompilers_wellFormed compilers p :
  wellFormed p -> wellFormed (addCompilers compilers p).
Proof.
  intros (Hentry & Hskip & Hall). unfold wellFormed, addCompilers. simpl.
  repeat split; [assumption | assumption |].
  eapply Forall_impl; [exact Hall |].
  intros x [Hout Hext]. split; [assumption |].
  unfold hasAcceptedExtension in *. simpl.
  apply includes_true. apply includes_true in Hext.
  apply elem_of_foldl_add. right. apply elem_of_app. left. assumption.
Qed.

Lemma applyOps_wellFormed ops p : wellFormed p -> wellFormed (applyOps ops p).
Proof.
  unfold applyOps. revert p.
  induction ops as [| op rest IH]; intros p Hwf; simpl; [assumption |].
  apply IH. destruct op; simpl.
  - apply addEntryPath_wellFormed, Hwf.
  - apply addEntryPaths_wellFormed, Hwf.
  - apply addProjectPath_wellFormed, Hwf.
  - apply addCompilers_wellFormed, Hwf.
Qed.

(** C5. Whatever entry paths, project paths and compilers are added to
    a fresh principal, every entry path is a project path and every
    project path lies outside [node_modules] and has an accepted
    extension; and a path inside [node_modules], or one whose extension
    is not accepted, is added by neither [addEntryPath] nor
    [addProjectPath]: both leave the principal as it was. *)
Theorem entryPaths_within_projectPaths (compilers : Compilers) (ops : list PathOp) :
  let p := applyOps ops (create compilers) in
  entryPaths p ⊆ projectPaths p
  /\ Forall (fun filePath =>
               isInNodeModules filePath = false
               /\ hasAcceptedExtension p filePath = true)
            (projectPaths p)
  /\ forall filePath options,
       isInNodeModules filePath = true \/ hasAcceptedExtension p filePath = false ->
       addEntryPath filePath options p = p /\ addProjectPath filePath p = p.
Proof.
  cbv zeta.
  destruct (applyOps_wellFormed ops _ (create_wellFormed compilers))
    as (Hentry & _ & Hall).
  split; [exact Hentry |]. split; [exact Hall |].
  intros filePath options Hrej. split.
  - apply addEntryPath_rejects, Hrej.
  - apply addProjectPath_rejects, Hrej.
Qed.

(** *** The program and the two file listings *)

Lemma filter_complement_Permutation {A} (f : A -> bool) (l : list A) :
  List.filter f l ++ List.filter (fun x => negb (f x)) l ≡ₚ l.
Proof.
  induction l as [| a l IH]; simpl; [reflexivity |].
  destruct (f a); simpl.
  - constructor. exact IH.
  - symmetry. apply Permutation_cons_app. symmetry. exact IH.
Qed.

(** C4. Once [getUsedResolvedFiles] has built the program, its result
    and that of [getUnreferencedFiles] split [projectPaths]: a project
    path is listed as used exactly when the program has a source file
    of that name, as unreferenced exactly when it has none, and so in
    exactly one of the two; together the two listings are a
    rearrangement of [projectPaths]. *)
Theorem used_unreferenced_partition (p : ProjectPrincipal) :
  let used := (getUsedResolvedFiles p).1 in
  let built := (getUsedResolvedFiles p).2 in
  let unreferenced := getUnreferencedFiles built in
  let sourceFiles := getProgramSourceFiles built in
  program built = Some (tsCreateProgram (entryPaths p) (program p))
  /\ projectPaths built = projectPaths p
  /\ (forall filePath,
        filePath ∈ used <-> filePath ∈ projectPaths p /\ filePath ∈ sourceFiles)
  /\ (forall filePath,
        filePath ∈ unreferenced <-> filePath ∈ projectPaths p /\ filePath ∉ sourceFiles)
  /\ (forall filePath,
        filePath ∈ projectPaths p <->
        ((filePath ∈ used /\ filePath ∉ unreferenced)
         \/ ((filePath ∉ used) /\ filePath ∈ unreferenced)))
  /\ (used ++ unreferenced ≡ₚ projectPaths p).
Proof.
  cbv zeta. unfold getUsedResolvedFiles, getUnreferencedFiles. simpl.
  set (sourceFiles := getProgramSourceFiles (createProgram p)).
  assert (Hused : forall filePath,
             filePath ∈ List.filter (fun f => Js.includes sourceFiles f) (projectPaths p)
             <-> filePath ∈ projectPaths p /\ filePath ∈ sourceFiles).
  { intros filePath. rewrite !list_elem_of_In, filter_In, <- !list_elem_of_In.
    rewrite includes_true. reflexivity. }
  assert (Hunref : forall filePath,
             filePath ∈ List.filter (fun f => negb (Js.includes sourceFiles f)) (projectPaths p)
             <-> filePath ∈ projectPaths p /\ filePath ∉ sourceFiles).
  { intros filePath. rewrite !list_elem_of_In, filter_In, <- !list_elem_of_In.
    rewrite negb_true_iff, includes_false. reflexivity. }
  split; [reflexivity |]. split; [reflexivity |].
  split; [exact Hused |]. split; [exact Hunref |]. split.
  - intros filePath. rewrite Hused, Hunref.
    destruct (decide (filePath ∈ sourceFiles)); tauto.
  - apply filter_complement_Permutation.
Qed.

End PathFacts.

(** ** Source analysis *)

Section AnalysisFacts.

Context {PU : PathUtil} {MU : ModuleUtil}.
Context {ImportMap ExportMap Scripts Compilers : Type}.
Context {B : Backend ImportMap ExportMap Scripts Compilers}.
Context {H : Host}.
Variable virtualFileExtensions : list string.

Import Principal.

Local Abbreviation resolveModule := (Principal.resolveModule virtualFileExtensions).
Local Abbreviation analyzeUnresolved := (Principal.analyzeUnresolved virtualFileExtensions).
Local Abbreviation forEachUnresolved := (Principal.forEachUnresolved virtualFileExtensions).
Local Abbreviation analyzeSourceFile := (Principal.analyzeSourceFile virtualFileExtensions).

(** The state after one import, by the branch taken. *)
Lemma analyzeUnresolved_http filePath st unresolvedImport :
  Js.startsWith (specifier unresolvedImport) "http" = true ->
  analyzeUnresolved filePath st unresolvedImport = (st, []).
Proof. intros Hhttp. unfold Principal.analyzeUnresolved. rewrite Hhttp. reflexivity. Qed.

Lemma analyzeUnresolved_resolved filePath st unresolvedImport m cache' probes :
  Js.startsWith (specifier unresolvedImport) "http" = false ->
  resolveModule (resolutionCache st) (specifier unresolvedImport) filePath
  = ((Some m, cache'), probes) ->
  (analyzeUnresolved filePath st unresolvedImport).1
  = if Js.truthyFlag (isExternalLibraryImport m) then
      {| principal := principal st;
         resolutionCache := cache';
         externalImports :=
           Js.add (sanitizeSpecifier (specifier unresolvedImport)) (externalImports st);
         unresolvedImports := unresolvedImports st |}
    else
      {| principal :=
           if isGitIgnored (resolvedFileName m) then principal st
           else addEntryPath (resolvedFileName m) (Some true) (principal st);
         resolutionCache := cache';
         externalImports := externalImports st;
         unresolvedImports := unresolvedImports st |}.
Proof.
  intros Hhttp Hres. unfold Principal.analyzeUnresolved.
  rewrite Hhttp, bind_fst, Hres. cbn [fst]. cbv beta iota.
  destruct (Js.truthyFlag (isExternalLibraryImport m)); [reflexivity |].
  destruct (isGitIgnored (resolvedFileName m)); reflexivity.
Qed.

Lemma analyzeUnresolved_failed filePath st unresolvedImport cache' probes :
  Js.startsWith (specifier unresolvedImport) "http" = false ->
  resolveModule (resolutionCache st) (specifier unresolvedImport) filePath
  = ((None, cache'), probes) ->
  let sanitizedSpecifier := sanitizeSpecifier (specifier unresolvedImport) in
  (analyzeUnresolved filePath st unresolvedImport).1
  = if isStartsLikePackageName sanitizedSpecifier then
      {| principal := principal st;
         resolutionCache := cache';
         externalImports := Js.add sanitizedSpecifier (externalImports st);
         unresolvedImports := unresolvedImports st |}
    else
      {| principal := principal st;
         resolutionCache := cache';
         externalImports := externalImports st;
         unresolvedImports :=
           if reportable filePath unresolvedImport
           then unresolvedImports st ++ [unresolvedImport]
           else unresolvedImports st |}.
Proof.
  intros Hhttp Hres. cbv zeta. unfold Principal.analyzeUnresolved.
  rewrite Hhttp, bind_fst, Hres. cbn [fst]. cbv beta iota zeta.
  unfold reportable. rewrite Hhttp.
  destruct (isStartsLikePackageName _); reflexivity.
Qed.

(** One import leaves the reported set alone or appends that import,
    and appends it only past the guards; the external set only grows. *)
Lemma analyzeUnresolved_reported filePath st unresolvedImport :
  let st' := (analyzeUnresolved filePath st unresolvedImport).1 in
  (unresolvedImports st' = unresolvedImports st
   \/ (unresolvedImports st' = unresolvedImports st ++ [unresolvedImport]
       /\ reportable filePath unresolvedImport = true))
  /\ externalImports st ⊆ externalImports st'.
Proof.
  cbv zeta.
  destruct (Js.startsWith (specifier unresolvedImport) "http") eqn:Hhttp.
  { rewrite analyzeUnresolved_http by assumption. simpl. split; [left |]; reflexivity. }
  destruct (resolveModule (resolutionCache st) (specifier unresolvedImport) filePath)
    as [[[m |] cache'] probes] eqn:Hres.
  - rewrite (analyzeUnresolved_resolved _ _ _ _ _ _ Hhttp Hres).
    destruct (Js.truthyFlag _); simpl; (split; [left; reflexivity |]).
    + intros x Hx. apply elem_of_add. right. exact Hx.
    + reflexivity.
  - rewrite (analyzeUnresolved_failed _ _ _ _ _ Hhttp Hres).
    destruct (isStartsLikePackageName _); simpl.
    + split; [left; reflexivity |].
      intros x Hx. apply elem_of_add. right. exact Hx.
    + split; [| reflexivity].
      destruct (reportable filePath unresolvedImport); [right | left]; auto.
Qed.

Lemma forEachUnresolved_cons filePath st unresolvedImport rest :
  (forEachUnresolved filePath st (unresolvedImport :: rest)).1
  = (forEachUnresolved filePath (analyzeUnresolved filePath st unresolvedImport).1 rest).1.
Proof. simpl. rewrite bind_fst. reflexivity. Qed.

(** Over the whole loop: what was reported or external stays so, and
    whatever is reported at the end was there at the start or passed
    the guards. *)
Lemma forEachUnresolved_reported filePath unresolved st :
  let st' := (forEachUnresolved filePath st unresolved).1 in
  unresolvedImports st ⊆ unresolvedImports st'
  /\ externalImports st ⊆ externalImports st'
  /\ forall unresolvedImport,
       unresolvedImport ∈ unresolvedImports st' ->
       unresolvedImport ∈ unresolvedImports st
       \/ (unresolvedImport ∈ unresolved /\ reportable filePath unresolvedImport = true).
Proof.
  revert st. induction unresolved as [| one rest IH]; intros st.
  - simpl. split; [reflexivity |]. split; [reflexivity | auto].
  - cbv zeta. rewrite forEachUnresolved_cons.
    specialize (IH (analyzeUnresolved filePath st one).1). cbv zeta in IH.
    destruct IH as (Hkeep & Hext & Hback).
    destruct (analyzeUnresolved_reported filePath st one) as [Hstep Hext1].
    cbv zeta in Hstep.
    split; [| split].
    + etrans; [| exact Hkeep].
      destruct Hstep as [-> | [-> _]]; [reflexivity |].
      intros x Hx. apply elem_of_app. left. exact Hx.
    + etrans; eassumption.
    + intros x Hx. apply Hback in Hx as [Hx | [Hx Hrep]].
      * destruct Hstep as [Heq | [Heq Hrep]]; rewrite Heq in Hx; [left; exact Hx |].
        apply elem_of_app in Hx as [Hx | Hx]; [left; exact Hx |].
        apply list_elem_of_singleton in Hx as ->.
        right. split; [apply elem_of_cons; left; reflexivity | exact Hrep].
      * right. split; [apply elem_of_cons; right; exact Hx | exact Hrep].
Qed.

Lemma analyzeSourceFile_reported filePath p cache found p' cache' :
  (analyzeSourceFile filePath p cache).1 = inr (found, p', cache') ->
  forall unresolvedImport,
    unresolvedImport ∈ unresolved found -> reportable filePath unresolvedImport = true.
Proof.
  unfold Principal.analyzeSourceFile.
  destruct (getSourceFile filePath) as [sourceFile |]; [| discriminate].
  rewrite bind_fst. simpl. intros Hout unresolvedImport Hin.
  injection Hout as <- _ _. simpl in Hin.
  match type of Hin with
  | _ ∈ unresolvedImports (Principal.forEachUnresolved _ _ ?st ?l).1 =>
      destruct (forEachUnresolved_reported filePath l st) as (_ & _ & Hback)
  end.
  apply Hback in Hin as [Hin | [_ Hrep]]; [| exact Hrep].
  simpl in Hin. apply elem_of_nil in Hin. contradiction.
Qed.

(** C8. An import whose specifier starts with [http:] is passed over:
    the loop body leaves the principal, the cache, the external set and
    the reported set as they were and makes no probe, and no such
    import is among the unresolved imports that [analyzeSourceFile]
    returns. *)
Theorem http_specifier_ignored (filePath : string) (unresolvedImport : UnresolvedImport) :
  Js.startsWith (specifier unresolvedImport) "http:" = true ->
  (forall st, analyzeUnresolved filePath st unresolvedImport = (st, []))
  /\ (forall p cache found p' cache',
        (analyzeSourceFile filePath p cache).1 = inr (found, p', cache') ->
        unresolvedImport ∉ unresolved found).
Proof.
  intros Hurl. apply startsWith_http in Hurl. split.
  - intros st. apply analyzeUnresolved_http, Hurl.
  - intros p cache found p' cache' Hout Hin.
    pose proof (analyzeSourceFile_reported _ _ _ _ _ _ Hout _ Hin) as Hrep.
    unfold reportable in Hrep. rewrite Hurl in Hrep. discriminate.
Qed.

(** C6, as the code has it. For an import that resolves to a module
    that is not an external library: when [isGitIgnored] holds of the
    resolved file the principal is left as it was; otherwise the file
    is handed to [addEntryPath] with [skipExportsAnalysis] set, so it
    joins [entryPaths], [projectPaths] and [skipExportsAnalysis] when
    it lies outside [node_modules] and has an accepted extension, and
    the principal is left as it was when it does not. *)
Theorem discovered_internal_module
    (filePath : string) (st : Analysis) (unresolvedImport : UnresolvedImport)
    (m : ResolvedModuleFull) cache' probes :
  Js.startsWith (specifier unresolvedImport) "http" = false ->
  resolveModule (resolutionCache st) (specifier unresolvedImport) filePath
  = ((Some m, cache'), probes) ->
  Js.truthyFlag (isExternalLibraryImport m) = false ->
  let after := principal (analyzeUnresolved filePath st unresolvedImport).1 in
  (isGitIgnored (resolvedFileName m) = true -> after = principal st)
  /\ (isGitIgnored (resolvedFileName m) = false ->
      after = addEntryPath (resolvedFileName m) (Some true) (principal st)
      /\ (isInNodeModules (resolvedFileName m) = false ->
          hasAcceptedExtension (principal st) (resolvedFileName m) = true ->
          resolvedFileName m ∈ entryPaths after
          /\ resolvedFileName m ∈ projectPaths after
          /\ resolvedFileName m ∈ skipExportsAnalysis after)
      /\ (isInNodeModules (resolvedFileName m) = true
          \/ hasAcceptedExtension (principal st) (resolvedFileName m) = false ->
          after = principal st)).
Proof.
  intros Hhttp Hres Hinternal. cbv zeta.
  rewrite (analyzeUnresolved_resolved _ _ _ _ _ _ Hhttp Hres), Hinternal. simpl.
  split; [intros ->; reflexivity |].
  intros ->. split; [reflexivity |]. split.
  - intros Hout Hext. unfold addEntryPath. rewrite Hout, Hext. simpl.
    repeat split; apply elem_of_add; left; reflexivity.
  - intros Hrej. unfold addEntryPath.
    destruct Hrej as [-> | ->]; [reflexivity |].
    rewrite andb_false_r. reflexivity.
Qed.

(** C7, as the code has it. No import whose sanitized specifier has an
    extension of the foreign set is among the unresolved imports that
    [analyzeSourceFile] returns. An import whose sanitized specifier
    has no extension and that fails to resolve is reported, and stays
    reported to the end of the loop, when its specifier does not start
    with [http], its sanitized form does not start like a package name
    and the path it would have next to the importing file is not
    ignored. *)
Theorem foreign_extension_skipped_bare_reported (filePath : string) :
  (forall p cache found p' cache' unresolvedImport,
      (analyzeSourceFile filePath p cache).1 = inr (found, p', cache') ->
      let ext := extname (sanitizeSpecifier (specifier unresolvedImport)) in
      ext <> "" ->
      ext ∈ FOREIGN_FILE_EXTENSIONS ->
      unresolvedImport ∉ unresolved found)
  /\ (forall st unresolvedImport rest cache' probes,
        Js.startsWith (specifier unresolvedImport) "http" = false ->
        resolveModule (resolutionCache st) (specifier unresolvedImport) filePath
        = ((None, cache'), probes) ->
        let sanitizedSpecifier := sanitizeSpecifier (specifier unresolvedImport) in
        extname sanitizedSpecifier = "" ->
        isStartsLikePackageName sanitizedSpecifier = false ->
        isGitIgnored (join (dirname filePath) sanitizedSpecifier) = false ->
        unresolvedImports (analyzeUnresolved filePath st unresolvedImport).1
        = unresolvedImports st ++ [unresolvedImport]
        /\ unresolvedImport
           ∈ unresolvedImports
               (forEachUnresolved filePath st (unresolvedImport :: rest)).1).
Proof.
  split.
  - intros p cache found p' cache' unresolvedImport Hout ext Hext Hforeign Hin.
    pose proof (analyzeSourceFile_reported _ _ _ _ _ _ Hout _ Hin) as Hrep.
    unfold reportable in Hrep. fold ext in Hrep.
    apply includes_true in Hforeign. rewrite Hforeign in Hrep.
    destruct ext; [congruence |]. simpl in Hrep.
    rewrite andb_false_r, andb_false_r in Hrep. discriminate.
  - intros st unresolvedImport rest cache' probes Hhttp Hres sanitizedSpecifier
      Hext Hpkg Hignored.
    assert (Hstep : unresolvedImports (analyzeUnresolved filePath st unresolvedImport).1
                    = unresolvedImports st ++ [unresolvedImport]).
    { rewrite (analyzeUnresolved_failed _ _ _ _ _ Hhttp Hres). cbv zeta.
      fold sanitizedSpecifier. rewrite Hpkg. simpl.
      unfold reportable. fold sanitizedSpecifier.
      rewrite Hhttp, Hpkg, Hignored, Hext. reflexivity. }
    split; [exact Hstep |].
    rewrite forEachUnresolved_cons.
    destruct (forEachUnresolved_reported filePath rest
                (analyzeUnresolved filePath st unresolvedImport).1) as (Hkeep & _).
    apply Hkeep. rewrite Hstep. apply elem_of_app. right.
    apply list_elem_of_singleton. reflexivity.
Qed.

(** C10, as the code has it. An import whose specifier does not start
    with [http], that fails to resolve and whose sanitized form starts
    like a package name has that sanitized form put into the external
    set, where it stays to the end of the loop, while the reported set
    and the principal are left alone; and no import whose sanitized
    specifier starts like a package name is among the unresolved
    imports that [analyzeSourceFile] returns. *)
Theorem package_like_specifier_external (filePath : string) :
  (forall st unresolvedImport rest cache' probes,
      Js.startsWith (specifier unresolvedImport) "http" = false ->
      resolveModule (resolutionCache st) (specifier unresolvedImport) filePath
      = ((None, cache'), probes) ->
      let sanitizedSpecifier := sanitizeSpecifier (specifier unresolvedImport) in
      isStartsLikePackageName sanitizedSpecifier = true ->
      let st' := (analyzeUnresolved filePath st unresolvedImport).1 in
      sanitizedSpecifier ∈ externalImports st'
      /\ unresolvedImports st' = unresolvedImports st
      /\ principal st' = principal st
      /\ sanitizedSpecifier
         ∈ externalImports (forEachUnresolved filePath st (unresolvedImport :: rest)).1)
  /\ (forall p cache found p' cache' unresolvedImport,
        (analyzeSourceFile filePath p cache).1 = inr (found, p', cache') ->
        isStartsLikePackageName (sanitizeSpecifier (specifier unresolvedImport)) = true ->
        unresolvedImport ∉ unresolved found).
Proof.
  split.
  - intros st unresolvedImport rest cache' probes Hhttp Hres sanitizedSpecifier Hpkg.
    cbv zeta.
    assert (Hstep : (analyzeUnresolved filePath st unresolvedImport).1
                    = {| principal := principal st;
                         resolutionCache := cache';
                         externalImports := Js.add sanitizedSpecifier (externalImports st);
                         unresolvedImports := unresolvedImports st |}).
    { rewrite (analyzeUnresolved_failed _ _ _ _ _ Hhttp Hres). cbv zeta.
      fold sanitizedSpecifier. rewrite Hpkg. reflexivity. }
    assert (Hnow : sanitizedSpecifier
                   ∈ externalImports (analyzeUnresolved filePath st unresolvedImport).1).
    { rewrite Hstep. simpl. apply elem_of_add. left. reflexivity. }
    split; [exact Hnow |].
    split; [rewrite Hstep; reflexivity |].
    split; [rewrite Hstep; reflexivity |].
    rewrite forEachUnresolved_cons.
    destruct (forEachUnresolved_reported filePath rest
                (analyzeUnresolved filePath st unresolvedImport).1) as (_ & Hext & _).
    apply Hext, Hnow.
  - intros p cache found p' cache' unresolvedImport Hout Hpkg Hin.
    pose proof (analyzeSourceFile_reported _ _ _ _ _ _ Hout _ Hin) as Hrep.
    unfold reportable in Hrep. rewrite Hpkg in Hrep.
    rewrite andb_false_r in Hrep. discriminate.
Qed.

(** ** Symbol usage *)

(** C1, as the code has it. A member tagged [@public] is never among
    the members [findUnusedMembers] returns, however many references
    it has. For an export tagged [@public], [hasReferences] answers
    [false] without asking the reference finder and leaves the
    principal as it was, however many references exist. *)
Theorem public_tag_short_circuits (filePath : string) (p : ProjectPrincipal) :
  (forall members member,
      Js.includes (member_jsDocTags member) "@public" = true ->
      member ∉ (findUnusedMembers filePath members p).1)
  /\ (forall exportedItem,
        Js.includes (jsDocTags exportedItem) "@public" = true ->
        hasReferences filePath exportedItem p = (false, p)).
Proof.
  split.
  - intros members member Hpublic Hin. unfold findUnusedMembers in Hin.
    destruct (ensureFindReferences p) as [f p']. simpl in Hin.
    apply list_elem_of_In, filter_In in Hin as [_ Hunused].
    unfold isUnusedMember in Hunused. rewrite Hpublic in Hunused. discriminate.
  - intros exportedItem Hpublic. unfold hasReferences. rewrite Hpublic. reflexivity.
Qed.

End AnalysisFacts.

(** * The properties on the sample project *)

Section Ground.

Import Sample.

Local Existing Instance posix.
Local Existing Instance project.
Local Existing Instance compiler.
Local Existing Instance moduleUtil.

Local Abbreviation vfe := compilerExtensions.
Local Abbreviation index := "/p/src/index.ts".

(** [fs] is a built-in module: it resolves to nothing, unprobed. *)
Lemma resolveModuleName_builtin_witness :
  Resolver.resolveModuleName vfe "fs" index = (None, []).
Proof.
  apply (resolveModuleName_builtin_or_installed vfe "fs" index).
  left. vm_compute. reflexivity.
Defined.

(** [#types/c] is mapped by the compiler to [/p/types/c.d.ts], next to
    which [/p/types/c.js] exists. *)
Lemma resolveModuleName_declaration_witness :
  (Resolver.resolveModuleName vfe "#types/c" index).1
  = Some {| resolvedFileName := "/p/types/c.js";
            extension := ".js";
            isExternalLibraryImport := Some false;
            resolvedUsingTsExtension := Some false |}.
Proof.
  rewrite (resolveModuleName_declaration vfe "#types/c" index declarationC);
    vm_compute; reflexivity.
Defined.

(** [./a.mjs] is mapped by the compiler to the project's own
    [/p/src/a.d.mts]; no implementation file stands next to it, and
    yet the result is [/p/src/a.mjs], not the declaration file. *)
Lemma declaration_kept_counterexample :
  ts_resolveModuleName TsSys (sanitizeSpecifier "./a.mjs") index = Some declarationA
  /\ isDeclarationFileExtension (extension declarationA) = true
  /\ isInternal (resolvedFileName declarationA) = true
  /\ Forall (fun ext => existsSync ("/p/src/a" +:+ ext) = false)
            (Resolver.extensions vfe)
  /\ (Resolver.resolveModuleName vfe "./a.mjs" index).1
     = Some {| resolvedFileName := "/p/src/a.mjs";
               extension := ".mjs";
               isExternalLibraryImport := Some false;
               resolvedUsingTsExtension := Some false |}
  /\ (Resolver.resolveModuleName vfe "./a.mjs" index).1 <> Some declarationA.
Proof.
  repeat split; try (vm_compute; reflexivity).
  - repeat constructor.
  - vm_compute. discriminate.
Qed.

(** A path without an accepted extension is turned away by a principal
    that already holds an entry and a project file. *)
Lemma entryPaths_within_projectPaths_witness :
  let p := principal0 in
  entryPaths p ⊆ projectPaths p
  /\ Principal.addEntryPath "/p/bin/tool" None p = p
  /\ Principal.addProjectPath "/p/bin/tool" p = p.
Proof.
  cbv zeta.
  destruct (entryPaths_within_projectPaths (B:=compiler) compilerExtensions
              [Principal.AddEntryPath index None;
               Principal.AddProjectPath "/p/src/unused.ts"])
    as (Hsub & _ & Hrej).
  split; [exact Hsub |].
  apply (Hrej "/p/bin/tool" None). right. vm_compute. reflexivity.
Defined.

(** [./util] resolves to [/p/src/util.ts], which is not ignored and is
    added with export analysis skipped. *)
Lemma discovered_internal_module_witness :
  let after :=
    Principal.principal (Principal.analyzeUnresolved vfe index start (import "./util" 0)).1 in
  "/p/src/util.ts" ∈ entryPaths after
  /\ "/p/src/util.ts" ∈ projectPaths after
  /\ "/p/src/util.ts" ∈ skipExportsAnalysis after.
Proof.
  cbv zeta.
  pose proof (discovered_internal_module vfe index start (import "./util" 0)
                {| resolvedFileName := "/p/src/util.ts";
                   extension := ".ts";
                   isExternalLibraryImport := Some false;
                   resolvedUsingTsExtension := Some false |}
                (Principal.resolveModule vfe ∅ "./util" index).1.2
                (Principal.resolveModule vfe ∅ "./util" index).2) as Hthm.
  cbv zeta in Hthm.
  destruct Hthm as [_ Hadd]; [vm_compute; reflexivity .. |].
  destruct Hadd as (_ & Hin & _); [vm_compute; reflexivity |].
  apply Hin; vm_compute; reflexivity.
Defined.

(** [./data.txt] resolves to an existing project file that is not
    ignored, and is added nowhere: [.txt] is not an accepted
    extension. *)
Lemma discovered_internal_module_counterexample :
  let unresolvedImport := import "./data.txt" 3 in
  let resolved := (Principal.resolveModule vfe ∅ "./data.txt" index).1.1 in
  let after :=
    Principal.principal (Principal.analyzeUnresolved vfe index start unresolvedImport).1 in
  resolved = Some {| resolvedFileName := "/p/src/data.txt";
                     extension := ".txt";
                     isExternalLibraryImport := Some false;
                     resolvedUsingTsExtension := Some false |}
  /\ isGitIgnored "/p/src/data.txt" = false
  /\ ("/p/src/data.txt" ∉ entryPaths after)
  /\ ("/p/src/data.txt" ∉ projectPaths after)
  /\ ("/p/src/data.txt" ∉ skipExportsAnalysis after).
Proof.
  cbv zeta. split; [vm_compute; reflexivity |]. split; [vm_compute; reflexivity |].
  repeat split; apply includes_false; vm_compute; reflexivity.
Qed.

(** The unresolved imports that the analysis of the index file
    returns. *)
Lemma analyzeSourceFile_index :
  exists found p' cache',
    (Principal.analyzeSourceFile vfe index principal0 ∅).1 = inr (found, p', cache')
    /\ unresolved found = [import "./missing" 6]
    /\ external found = ["not-exist"; "fs"].
Proof. do 3 eexists. split; [vm_compute; reflexivity |]. split; reflexivity. Qed.

(** A Deno-style import changes nothing and is not reported. *)
Lemma http_specifier_ignored_witness :
  let unresolvedImport := import "http://cdn.example.com/lib.js" 9 in
  Principal.analyzeUnresolved vfe index start unresolvedImport = (start, [])
  /\ exists found p' cache',
       (Principal.analyzeSourceFile vfe index principal0 ∅).1 = inr (found, p', cache')
       /\ (unresolvedImport ∉ unresolved found).
Proof.
  cbv zeta.
  destruct (http_specifier_ignored vfe index (import "http://cdn.example.com/lib.js" 9))
    as [Hstep Hall]; [vm_compute; reflexivity |].
  split; [apply Hstep |].
  do 3 eexists. split; [vm_compute; reflexivity |].
  eapply (Hall principal0 ∅). vm_compute. reflexivity.
Defined.

(** [./style.css] has a foreign extension and is not reported;
    [./missing] has none, is no package name, is not ignored, and is
    reported. *)
Lemma foreign_extension_skipped_bare_reported_witness :
  (exists found p' cache',
      (Principal.analyzeSourceFile vfe index principal0 ∅).1 = inr (found, p', cache')
      /\ (import "./style.css" 5 ∉ unresolved found))
  /\ Principal.unresolvedImports
       (Principal.analyzeUnresolved vfe index start (import "./missing" 6)).1
     = [import "./missing" 6].
Proof.
  destruct (foreign_extension_skipped_bare_reported vfe index) as [Hforeign Hbare].
  split.
  - do 3 eexists. split; [vm_compute; reflexivity |].
    eapply (Hforeign principal0 ∅).
    + vm_compute. reflexivity.
    + vm_compute. discriminate.
    + apply includes_true. vm_compute. reflexivity.
  - apply (Hbare start (import "./missing" 6) []
             (Principal.resolveModule vfe ∅ "./missing" index).1.2
             (Principal.resolveModule vfe ∅ "./missing" index).2);
      vm_compute; reflexivity.
Defined.

(** [not-exist], imported by the dependencies fixture, has no
    extension and fails to resolve, and it is not reported: it starts
    like a package name and goes to the external set. *)
Lemma bare_specifier_reported_counterexample :
  let unresolvedImport := import "not-exist" 7 in
  let st' := (Principal.analyzeUnresolved vfe index start unresolvedImport).1 in
  (Principal.resolveModule vfe ∅ "not-exist" index).1.1 = None
  /\ extname (sanitizeSpecifier "not-exist") = ""
  /\ Principal.unresolvedImports st' = []
  /\ exists found p' cache',
       (Principal.analyzeSourceFile vfe index principal0 ∅).1 = inr (found, p', cache')
       /\ (unresolvedImport ∉ unresolved found).
Proof.
  cbv zeta. repeat split; try (vm_compute; reflexivity).
  do 3 eexists. split; [vm_compute; reflexivity |].
  simpl. intros Hin. apply list_elem_of_singleton in Hin. discriminate.
Qed.

(** [not-exist] fails to resolve, starts like a package name and ends
    up in the external set. *)
Lemma package_like_specifier_external_witness :
  let st' := (Principal.analyzeUnresolved vfe index start (import "not-exist" 7)).1 in
  "not-exist" ∈ Principal.externalImports st'
  /\ Principal.unresolvedImports st' = []
  /\ Principal.principal st' = principal0.
Proof.
  cbv zeta.
  destruct (package_like_specifier_external vfe index) as [Hstep _].
  destruct (Hstep start (import "not-exist" 7) []
              (Principal.resolveModule vfe ∅ "not-exist" index).1.2
              (Principal.resolveModule vfe ∅ "not-exist" index).2)
    as (Hext & Hrep & Hsame & _); try (vm_compute; reflexivity).
  split; [exact Hext |]. split; [exact Hrep | exact Hsame].
Defined.

(** A Deno-style import and the package [http-proxy] both fail to
    resolve and have a sanitized form that starts like a package name,
    and neither reaches the external set: the loop body returns at
    once for a specifier that starts with [http]. *)
Lemma package_like_specifier_external_counterexample :
  Forall
    (fun name =>
       let unresolvedImport := import name 8 in
       let st' := (Principal.analyzeUnresolved vfe index start unresolvedImport).1 in
       (Principal.resolveModule vfe ∅ name index).1.1 = None
       /\ isStartsLikePackageName (sanitizeSpecifier name) = true
       /\ (sanitizeSpecifier name ∉ Principal.externalImports st')
       /\ Principal.externalImports st' = [])
    ["https://deno.land/x/mod.ts"; "http-proxy"].
Proof.
  repeat constructor; try (vm_compute; reflexivity);
    apply includes_false; vm_compute; reflexivity.
Qed.

(** A member tagged [@public] is not listed as unused, and
    [hasReferences] answers [false] for an export tagged [@public]. *)
Lemma public_tag_short_circuits_witness :
  (publicMember ∉ (Principal.findUnusedMembers "/p/src/lib.ts" [publicMember] principal0).1)
  /\ Principal.hasReferences "/p/src/lib.ts" publicExport principal0 = (false, principal0).
Proof.
  destruct (public_tag_short_circuits (B:=compiler) "/p/src/lib.ts" principal0)
    as [Hmember Hexport].
  split.
  - apply Hmember. vm_compute. reflexivity.
  - apply Hexport. vm_compute. reflexivity.
Defined.

(** The export at position 13 of [/p/src/lib.ts] is tagged [@public]
    and is referenced from [/p/src/index.ts], and [hasReferences] does
    not answer that it has references. *)
Lemma hasReferences_public_counterexample :
  Js.includes (jsDocTags publicExport) "@public" = true
  /\ "/p/src/index.ts"
     ∈ Principal.referencingFiles languageService_findReferences
         "/p/src/lib.ts" (pos publicExport)
  /\ (Principal.hasReferences "/p/src/lib.ts" publicExport principal0).1 <> true.
Proof.
  split; [vm_compute; reflexivity |]. split.
  - apply includes_true. vm_compute. reflexivity.
  - vm_compute. discriminate.
Qed.

(** Two names resolved under the project's host are answered again,
    unprobed, by a host that has no files and a compiler that resolves
    nothing. *)
Lemma resolveModuleNames_twice_example :
  let first := Resolver.resolveModuleNames (H:=project) vfe ∅ ["./util"; "not-exist"] index in
  Resolver.resolveModuleNames (H:=host [] [] []) vfe first.1.2 ["./util"; "not-exist"] index
  = ((first.1.1, first.1.2), []).
Proof. vm_compute. reflexivity. Qed.

(** With the index file as the only root, the unused file is the one
    unreferenced project path. *)
Lemma used_unreferenced_example :
  (Principal.getUsedResolvedFiles principal0).1 = [index]
  /\ Principal.getUnreferencedFiles (Principal.getUsedResolvedFiles principal0).2
     = ["/p/src/unused.ts"].
Proof. split; vm_compute; reflexivity. Qed.

End Ground.

(** * Further properties of the resolver *)

Section ResolverMore.

Context {PU : PathUtil} {MU : ModuleUtil}.
Variable virtualFileExtensions : list string.

Local Abbreviation resolveModuleName := (Resolver.resolveModuleName virtualFileExtensions).
Local Abbreviation resolveModuleNames := (Resolver.resolveModuleNames virtualFileExtensions).
Local Abbreviation viaCustomSys := (Resolver.viaCustomSys virtualFileExtensions).
Local Abbreviation fromDeclaration := (Resolver.fromDeclaration virtualFileExtensions).
Local Abbreviation cacheKey := Resolver.cacheKey.

(** The cache after a call keeps every entry it had, unchanged, has one
    answer per module name asked, and holds each answer under the key of
    its module name. *)
Theorem resolutionCache_append_only
    {H : Host} (cache : gmap string (option ResolvedModuleFull))
    (moduleNames : list string) (containingFile : string) :
  let out := (resolveModuleNames cache moduleNames containingFile).1 in
  cache ⊆ out.2
  /\ length out.1 = length moduleNames
  /\ Forall2 (fun moduleName r => out.2 !! cacheKey moduleName containingFile = Some r)
             moduleNames out.1.
Proof.
  cbv zeta.
  destruct (resolveModuleNames_fills virtualFileExtensions moduleNames containingFile cache)
    as [Hsub Hall].
  cbv zeta in Hsub, Hall. split; [exact Hsub | split; [| exact Hall]].
  symmetry. eapply Forall2_length. exact Hall.
Qed.

(** Relative specifiers are cached by the path they name: once a
    relative specifier has been resolved from one file, the same
    specifier from any file of the same directory is answered from the
    cache, with the same result and no probe. *)
Theorem relative_specifier_shared
    (first later : Host) (cache : gmap string (option ResolvedModuleFull))
    (moduleName file1 file2 : string) :
  Js.startsWith moduleName "." = true ->
  dirname file1 = dirname file2 ->
  let out := (Resolver.resolveModuleNames (H:=first) virtualFileExtensions
                cache [moduleName] file1).1 in
  Resolver.resolveModuleNames (H:=later) virtualFileExtensions out.2 [moduleName] file2
  = ((out.1, out.2), []).
Proof.
  intros Hrel Hdir. cbv zeta.
  apply resolveModuleNames_all_cached.
  destruct (resolveModuleNames_fills (H:=first) virtualFileExtensions
              [moduleName] file1 cache) as [_ Hall].
  cbv zeta in Hall.
  destruct (Resolver.resolveModuleNames virtualFileExtensions cache [moduleName] file1).1
    as [rs cache1].
  simpl in Hall |- *.
  inversion Hall as [| name r rest rs' Hhit Hrest]; subst.
  inversion Hrest; subst.
  constructor; [| constructor].
  unfold Resolver.cacheKey in *. rewrite Hrel in *. rewrite <- Hdir. exact Hhit.
Qed.

(** *** What one resolution asks of the host *)

Lemma fileExists_snd {H : Host} name containingFile :
  (Resolver.fileExists name containingFile).2
  = [ProbeExists (if isAbsolute name then name else join (dirname containingFile) name)].
Proof.
  unfold Resolver.fileExists. rewrite bind_probe. simpl.
  destruct (existsSync _); reflexivity.
Qed.

Lemma probeImplementation_length {H : Host} exts base containingFile :
  length (Resolver.probeImplementation exts base containingFile).2 <= length exts.
Proof.
  induction exts as [| ext rest IH]; simpl; [lia |].
  rewrite bind_snd, fileExists_snd, fileExists_fst. cbv zeta.
  destruct (existsSync _); simpl; lia.
Qed.

Lemma fromDeclaration_length {H : Host} m containingFile :
  length (fromDeclaration m containingFile).2 <= 2.
Proof.
  unfold Resolver.fromDeclaration.
  destruct (String.eqb _ ".d.mts"); [simpl; lia |].
  destruct (String.eqb _ ".d.cts"); [simpl; lia |].
  cbv zeta. destruct (Js.truthy _ && Js.includes _ _); [simpl; lia |].
  rewrite bind_snd.
  pose proof (probeImplementation_length [".js"; ".jsx"]
                (Js.replaceSuffix (resolvedFileName m) ".d.ts" "") containingFile) as Hlen.
  destruct (Resolver.probeImplementation _ _ _) as [[found |] probes];
    simpl in *; rewrite length_app; simpl; lia.
Qed.

Lemma viaCustomSys_length {H : Host} sanitizedSpecifier containingFile :
  length (viaCustomSys sanitizedSpecifier containingFile).2 <= 2.
Proof.
  unfold Resolver.viaCustomSys. rewrite bind_probe. cbn [snd fst].
  destruct (ts_resolveModuleName CustomSys _ _) as [m |].
  - destruct (isVirtualFilePath _ _); [simpl; lia |].
    rewrite bind_snd, fileExists_snd.
    destruct (Resolver.fileExists _ _).1; simpl; lia.
  - rewrite bind_snd, fileExists_snd.
    destruct (Resolver.fileExists _ _).1; simpl; lia.
Qed.

(** Resolving one specifier asks at most four things of the host. *)
Theorem resolveModuleName_probes_bounded
    {H : Host} (name containingFile : string) :
  length (resolveModuleName name containingFile).2 <= 4.
Proof.
  unfold Resolver.resolveModuleName. cbv zeta.
  destruct (isBuiltin _ || isInNodeModules _); [simpl; lia |].
  rewrite bind_probe. cbn [snd fst].
  destruct (resolve_sync _ _ _) as [resolved |]; [simpl; lia |].
  rewrite bind_probe. cbn [snd fst].
  pose proof (viaCustomSys_length (sanitizeSpecifier name) containingFile) as Hcustom.
  destruct (ts_resolveModuleName TsSys _ _) as [m |]; [| simpl; lia].
  pose proof (fromDeclaration_length m containingFile) as Hdecl.
  destruct (isDeclarationFileExtension _ && isInternal _); [simpl; lia |].
  destruct (negb (isVirtualFilePath _ _)); simpl; lia.
Qed.

(** The first success wins: when [resolve.sync] finds the specifier,
    its answer is the result, marked external exactly when the found
    path lies inside [node_modules] and given the [.js] extension when
    its own is a registered virtual one; the compiler and the file
    system are not consulted. *)
Theorem resolve_sync_wins
    {H : Host} (name containingFile resolved : string) :
  isBuiltin (sanitizeSpecifier name) = false ->
  isInNodeModules name = false ->
  resolve_sync (sanitizeSpecifier name) (dirname containingFile)
               (Resolver.extensions virtualFileExtensions) = Some resolved ->
  resolveModuleName name containingFile
  = (Some {| resolvedFileName := toPosix resolved;
             extension :=
               if Js.includes virtualFileExtensions (extname resolved)
               then ".js" else extname resolved;
             isExternalLibraryImport := Some (isInNodeModules (toPosix resolved));
             resolvedUsingTsExtension := Some false |},
     [ProbeResolveSync (sanitizeSpecifier name) (dirname containingFile)]).
Proof.
  intros Hbuiltin Hinstalled Hsync. unfold Resolver.resolveModuleName.
  rewrite Hbuiltin, Hinstalled. simpl orb. cbv iota zeta.
  rewrite bind_probe, Hsync. reflexivity.
Qed.

(** A specifier is left unresolved only when it is built-in or inside
    [node_modules], or when everything failed: [resolve.sync] threw,
    the compiler over the custom system resolved nothing, and no file
    exists at the specifier taken as a path (absolute, or relative to
    the directory of the containing file). *)
Theorem unresolved_only_if_all_fail
    {H : Host} (name containingFile : string) :
  (resolveModuleName name containingFile).1 = None ->
  (isBuiltin (sanitizeSpecifier name) = true \/ isInNodeModules name = true)
  \/ (resolve_sync (sanitizeSpecifier name) (dirname containingFile)
                   (Resolver.extensions virtualFileExtensions) = None
      /\ ts_resolveModuleName CustomSys (sanitizeSpecifier name) containingFile = None
      /\ existsSync (if isAbsolute (sanitizeSpecifier name)
                     then sanitizeSpecifier name
                     else join (dirname containingFile) (sanitizeSpecifier name))
         = false).
Proof.
  unfold Resolver.resolveModuleName. cbv zeta.
  destruct (isBuiltin (sanitizeSpecifier name)) eqn:Hbuiltin; [auto |].
  destruct (isInNodeModules name) eqn:Hinstalled; [auto |].
  simpl orb. cbv iota. rewrite bind_probe. cbn [fst].
  destruct (resolve_sync _ _ _) as [resolved |] eqn:Hsync; [discriminate |].
  rewrite bind_probe. cbn [fst].
  assert (Hcustom : (viaCustomSys (sanitizeSpecifier name) containingFile).1 = None ->
            ts_resolveModuleName CustomSys (sanitizeSpecifier name) containingFile = None
            /\ existsSync (if isAbsolute (sanitizeSpecifier name)
                           then sanitizeSpecifier name
                           else join (dirname containingFile) (sanitizeSpecifier name))
               = false).
  { unfold Resolver.viaCustomSys. rewrite bind_probe. cbn [fst].
    destruct (ts_resolveModuleName CustomSys _ _) as [m |].
    - destruct (isVirtualFilePath _ _); [discriminate |].
      rewrite bind_fst, fileExists_fst. cbv zeta.
      destruct (existsSync _); discriminate.
    - rewrite bind_fst, fileExists_fst. cbv zeta.
      destruct (existsSync _); [discriminate | auto]. }
  destruct (ts_resolveModuleName TsSys _ _) as [m |].
  - destruct (isDeclarationFileExtension _ && isInternal _).
    + unfold Resolver.fromDeclaration.
      destruct (String.eqb _ ".d.mts"); [discriminate |].
      destruct (String.eqb _ ".d.cts"); [discriminate |].
      cbv zeta. destruct (Js.truthy _ && Js.includes _ _); [discriminate |].
      rewrite bind_fst.
      destruct (Resolver.probeImplementation _ _ _).1; discriminate.
    + destruct (negb (isVirtualFilePath _ _)); [discriminate |].
      intros Hnone. right. split; [reflexivity |]. apply Hcustom, Hnone.
  - intros Hnone. right. split; [reflexivity |]. apply Hcustom, Hnone.
Qed.

End ResolverMore.

(** * Further properties of the principal *)

Section PrincipalMore.

Context {PU : PathUtil} {MU : ModuleUtil}.
Context {ImportMap ExportMap Scripts Compilers : Type}.
Context {B : Backend ImportMap ExportMap Scripts Compilers}.

Import Principal.

(** ** Path sets *)

Lemma add_idempotent (x : string) (xs : list string) :
  Js.add x (Js.add x xs) = Js.add x xs.
Proof.
  unfold Js.add at 1.
  assert (Js.includes (Js.add x xs) x = true) as ->; [| reflexivity].
  apply includes_true, elem_of_add. left. reflexivity.
Qed.

Lemma add_present (x : string) (xs : list string) : x ∈ xs -> Js.add x xs = xs.
Proof. intros Hin. unfold Js.add. apply includes_true in Hin. rewrite Hin. reflexivity. Qed.

(** Adding a path twice is adding it once, and a path already added as
    an entry is not added again as a project path. *)
Theorem addEntryPath_idempotent (filePath : string) (options : option bool)
    (p : ProjectPrincipal) :
  addEntryPath filePath options (addEntryPath filePath options p)
  = addEntryPath filePath options p
  /\ addProjectPath filePath (addEntryPath filePath options p)
     = addEntryPath filePath options p
  /\ addProjectPath filePath (addProjectPath filePath p) = addProjectPath filePath p.
Proof.
  unfold addEntryPath, addProjectPath, hasAcceptedExtension.
  destruct (negb (isInNodeModules filePath) && Js.includes (extensions p) (extname filePath))
    eqn:Hok; simpl; rewrite ?Hok; simpl.
  - rewrite !add_idempotent.
    destruct (Js.truthyFlag options); rewrite ?add_idempotent; auto.
  - rewrite ?Hok. auto.
Qed.

Lemma applyOp_grows op p :
  entryPaths p ⊆ entryPaths (applyOp p op)
  /\ projectPaths p ⊆ projectPaths (applyOp p op)
  /\ skipExportsAnalysis p ⊆ skipExportsAnalysis (applyOp p op)
  /\ extensions p ⊆ extensions (applyOp p op).
Proof.
  assert (Hentry : forall filePath options q,
             entryPaths q ⊆ entryPaths (addEntryPath filePath options q)
             /\ projectPaths q ⊆ projectPaths (addEntryPath filePath options q)
             /\ skipExportsAnalysis q ⊆ skipExportsAnalysis (addEntryPath filePath options q)
             /\ extensions q ⊆ extensions (addEntryPath filePath options q)).
  { intros filePath options q. unfold addEntryPath.
    destruct (negb _ && _); simpl; [| repeat split; reflexivity].
    repeat split; try reflexivity.
    - intros x Hx. apply elem_of_add. right. exact Hx.
    - intros x Hx. apply elem_of_add. right. exact Hx.
    - destruct (Js.truthyFlag options); [| reflexivity].
      intros x Hx. apply elem_of_add. right. exact Hx. }
  destruct op as [filePath options | filePaths options | filePath | compilers]; simpl.
  - apply Hentry.
  - unfold addEntryPaths. revert p.
    induction filePaths as [| filePath rest IH]; intros p; simpl;
      [repeat split; reflexivity |].
    destruct (Hentry filePath options p) as (H1 & H2 & H3 & H4).
    destruct (IH (addEntryPath filePath options p)) as (I1 & I2 & I3 & I4).
    repeat split; etrans; eassumption.
  - unfold addProjectPath. destruct (negb _ && _); simpl; [| repeat split; reflexivity].
    repeat split; try reflexivity.
    intros x Hx. apply elem_of_add. right. exact Hx.
  - repeat split; try reflexivity.
    intros x Hx. apply elem_of_foldl_add. right. apply elem_of_app. left. exact Hx.
Qed.

(** Nothing is ever taken back: whatever calls follow, the entry paths,
    the project paths, the files whose exports are skipped and the
    accepted extensions of a principal all stay. *)
Theorem path_sets_only_grow (ops : list PathOp) (p : ProjectPrincipal) :
  entryPaths p ⊆ entryPaths (applyOps ops p)
  /\ projectPaths p ⊆ projectPaths (applyOps ops p)
  /\ skipExportsAnalysis p ⊆ skipExportsAnalysis (applyOps ops p)
  /\ extensions p ⊆ extensions (applyOps ops p).
Proof.
  unfold applyOps. revert p.
  induction ops as [| op rest IH]; intros p; simpl; [repeat split; reflexivity |].
  destruct (applyOp_grows op p) as (H1 & H2 & H3 & H4).
  destruct (IH (applyOp p op)) as (I1 & I2 & I3 & I4).
  repeat split; etrans; eassumption.
Qed.

Lemma addEntryPath_skip_within_entries filePath options p :
  skipExportsAnalysis p ⊆ entryPaths p ->
  skipExportsAnalysis (addEntryPath filePath options p)
  ⊆ entryPaths (addEntryPath filePath options p).
Proof.
  intros Hskip. unfold addEntryPath. destruct (negb _ && _); simpl; [| exact Hskip].
  destruct (Js.truthyFlag options); intros x Hx.
  - apply elem_of_add in Hx as [-> | Hx]; apply elem_of_add; [left; reflexivity |].
    right. apply Hskip, Hx.
  - apply elem_of_add. right. apply Hskip, Hx.
Qed.

Lemma addEntryPath_NoDup filePath options p :
  NoDup (entryPaths p) /\ NoDup (projectPaths p) /\ NoDup (skipExportsAnalysis p) ->
  NoDup (entryPaths (addEntryPath filePath options p))
  /\ NoDup (projectPaths (addEntryPath filePath options p))
  /\ NoDup (skipExportsAnalysis (addEntryPath filePath options p)).
Proof.
  intros (H1 & H2 & H3). unfold addEntryPath. destruct (negb _ && _); simpl; [| auto].
  repeat split; try (apply add_NoDup; assumption).
  destruct (Js.truthyFlag options); [apply add_NoDup |]; assumption.
Qed.

Lemma applyOps_unique ops p :
  skipExportsAnalysis p ⊆ entryPaths p
  /\ NoDup (entryPaths p) /\ NoDup (projectPaths p) /\ NoDup (skipExportsAnalysis p) ->
  skipExportsAnalysis (applyOps ops p) ⊆ entryPaths (applyOps ops p)
  /\ NoDup (entryPaths (applyOps ops p))
  /\ NoDup (projectPaths (applyOps ops p))
  /\ NoDup (skipExportsAnalysis (applyOps ops p)).
Proof.
  unfold applyOps. revert p.
  induction ops as [| op rest IH]; intros p Hinv; simpl; [exact Hinv |].
  apply IH. clear IH. destruct Hinv as (Hskip & Hnd).
  destruct op as [filePath options | filePaths options | filePath | compilers]; simpl.
  - split; [apply addEntryPath_skip_within_entries, Hskip | apply addEntryPath_NoDup, Hnd].
  - unfold addEntryPaths. revert p Hskip Hnd.
    induction filePaths as [| filePath more IH]; intros p Hskip Hnd; simpl; [auto |].
    apply IH; [apply addEntryPath_skip_within_entries, Hskip | apply addEntryPath_NoDup, Hnd].
  - unfold addProjectPath. destruct (negb _ && _); simpl; [| auto].
    destruct Hnd as (H1 & H2 & H3). repeat split; try assumption.
    apply add_NoDup, H2.
  - auto.
Qed.

(** In a principal built from a fresh one, export analysis is skipped
    only for entry paths, and no path is held twice: the two listings
    of project files name each file at most once. *)
Theorem skipped_files_are_entries (compilers : Compilers) (ops : list PathOp) :
  let p := applyOps ops (create compilers) in
  skipExportsAnalysis p ⊆ entryPaths p
  /\ NoDup (entryPaths p)
  /\ NoDup (projectPaths p)
  /\ NoDup (getUsedResolvedFiles p).1
  /\ NoDup (getUnreferencedFiles p).
Proof.
  cbv zeta.
  destruct (applyOps_unique ops (create compilers)) as (Hskip & He & Hp & _).
  { simpl. repeat split; try reflexivity; constructor. }
  split; [exact Hskip |]. split; [exact He |]. split; [exact Hp |].
  unfold getUsedResolvedFiles, getUnreferencedFiles. simpl.
  split; apply NoDup_ListNoDup, List.NoDup_filter, NoDup_ListNoDup, Hp.
Qed.

(** Registering compilers changes no path set, and a path outside
    [node_modules] whose extension they bring is accepted from then
    on. *)
Theorem addCompilers_accepts (compilers : Compilers) (filePath : string)
    (options : option bool) (p : ProjectPrincipal) :
  extname filePath ∈ getCompilerExtensions compilers ->
  isInNodeModules filePath = false ->
  let p' := addCompilers compilers p in
  entryPaths p' = entryPaths p
  /\ projectPaths p' = projectPaths p
  /\ skipExportsAnalysis p' = skipExportsAnalysis p
  /\ filePath ∈ entryPaths (addEntryPath filePath options p')
  /\ filePath ∈ projectPaths (addProjectPath filePath p').
Proof.
  intros Hext Hout. cbv zeta.
  assert (Hok : hasAcceptedExtension (addCompilers compilers p) filePath = true).
  { unfold hasAcceptedExtension, addCompilers. simpl.
    apply includes_true, elem_of_foldl_add. right. apply elem_of_app. right. exact Hext. }
  repeat split; try reflexivity.
  - unfold addEntryPath. rewrite Hout, Hok. simpl. apply elem_of_add. left. reflexivity.
  - unfold addProjectPath. rewrite Hout, Hok. simpl. apply elem_of_add. left. reflexivity.
Qed.

(** ** The program *)

(** Before any program has been built every project path is listed as
    unreferenced. *)
Theorem getUnreferencedFiles_without_program (p : ProjectPrincipal) :
  program p = None -> getUnreferencedFiles p = projectPaths p.
Proof.
  intros Hnone. unfold getUnreferencedFiles, getProgramSourceFiles. rewrite Hnone.
  induction (projectPaths p) as [| filePath rest IH]; simpl; [reflexivity |].
  f_equal. exact IH.
Qed.

(** When the program built from the entry paths has a source file for
    each of them, every entry path that is a project path is listed as
    used and none is listed as unreferenced. *)
Theorem entry_paths_are_used (p : ProjectPrincipal) :
  entryPaths p ⊆ projectPaths p ->
  entryPaths p
  ⊆ map fileName (getSourceFiles (tsCreateProgram (entryPaths p) (program p))) ->
  entryPaths p ⊆ (getUsedResolvedFiles p).1
  /\ forall filePath,
       filePath ∈ entryPaths p ->
       filePath ∉ getUnreferencedFiles (getUsedResolvedFiles p).2.
Proof.
  intros Hproject Hroots.
  unfold getUsedResolvedFiles, getUnreferencedFiles, getProgramSourceFiles. simpl.
  split.
  - intros filePath Hin. apply list_elem_of_In, filter_In. split.
    + apply list_elem_of_In, Hproject, Hin.
    + apply includes_true, Hroots, Hin.
  - intros filePath Hin Hbad. apply list_elem_of_In, filter_In in Hbad as [_ Hbad].
    apply negb_true_iff, includes_false in Hbad. apply Hbad, Hroots, Hin.
Qed.

End PrincipalMore.

(** * Further properties of the symbol-usage queries *)

Section UsageMore.

Context {ImportMap ExportMap Scripts Compilers : Type}.
Context {B : Backend ImportMap ExportMap Scripts Compilers}.

Import Principal.

(** The reference finder a query uses: the one the principal holds, or
    that of a fresh language service. *)
Local Abbreviation finderOf p :=
  (default languageService_findReferences (findReferences p)).

Lemma ensureFindReferences_spec (p : ProjectPrincipal) :
  (ensureFindReferences p).1 = finderOf p
  /\ findReferences (ensureFindReferences p).2 = Some (finderOf p)
  /\ entryPaths (ensureFindReferences p).2 = entryPaths p
  /\ projectPaths (ensureFindReferences p).2 = projectPaths p
  /\ skipExportsAnalysis (ensureFindReferences p).2 = skipExportsAnalysis p
  /\ extensions (ensureFindReferences p).2 = extensions p
  /\ program (ensureFindReferences p).2 = program p.
Proof.
  unfold ensureFindReferences.
  destruct (findReferences p) as [f |] eqn:Hf; simpl; rewrite ?Hf; repeat split.
Qed.

Lemma ensureFindReferences_ready (p : ProjectPrincipal) (f : FindReferences) :
  findReferences p = Some f -> ensureFindReferences p = (f, p).
Proof. intros Hf. unfold ensureFindReferences. rewrite Hf. reflexivity. Qed.

Lemma filter_nil_iff {A} (f : A -> bool) (l : list A) :
  List.filter f l = [] <-> forall x, x ∈ l -> f x = false.
Proof.
  induction l as [| a l IH]; simpl.
  - split; [intros _ x Hx; apply elem_of_nil in Hx; contradiction | reflexivity].
  - destruct (f a) eqn:Hfa.
    + split; [discriminate |]. intros Hall.
      rewrite (Hall a) in Hfa; [discriminate | apply elem_of_cons; auto].
    + rewrite IH. split.
      * intros Hall x Hx. apply elem_of_cons in Hx as [-> | Hx]; auto.
      * intros Hall x Hx. apply Hall, elem_of_cons. auto.
Qed.

Lemma elem_of_referencingFiles (f : FindReferences) (filePath file : string) (at_ : nat) :
  file ∈ referencingFiles f filePath at_ <->
  exists ref,
    ref ∈ flat_map references (default [] (f filePath at_))
    /\ Js.truthyFlag (ReferenceEntry.isDefinition ref) = false
    /\ ReferenceEntry.fileName ref = file.
Proof.
  unfold referencingFiles. rewrite list_elem_of_In, in_map_iff. split.
  - intros (ref & Hname & Hin). apply filter_In in Hin as [Hin Hdef].
    exists ref. rewrite list_elem_of_In, <- negb_true_iff. auto.
  - intros (ref & Hin & Hdef & Hname). exists ref. split; [exact Hname |].
    apply filter_In. rewrite <- list_elem_of_In, negb_true_iff. auto.
Qed.

(** For an export that is not tagged [@public], [hasReferences] answers
    [true] exactly when the reference finder knows a reference to its
    position that is not a definition and lies in another file. *)
Theorem hasReferences_iff_external_reference (filePath : string)
    (exportedItem : SerializableExport) (p : ProjectPrincipal) :
  Js.includes (jsDocTags exportedItem) "@public" = false ->
  (hasReferences filePath exportedItem p).1 = true <->
  exists ref,
    ref ∈ flat_map references (default [] (finderOf p filePath (pos exportedItem)))
    /\ Js.truthyFlag (ReferenceEntry.isDefinition ref) = false
    /\ ReferenceEntry.fileName ref <> filePath.
Proof.
  intros Hpublic. unfold hasReferences. rewrite Hpublic.
  destruct (ensureFindReferences_spec p) as (Hf & _).
  destruct (ensureFindReferences p) as [f p']. simpl in Hf. subst f. simpl.
  set (files := referencingFiles _ _ _).
  split.
  - intros Hsome.
    destruct (List.filter _ files) as [| file rest] eqn:Hfilter; [discriminate |].
    assert (Hin : In file (List.filter (fun file => negb (String.eqb file filePath)) files))
      by (rewrite Hfilter; left; reflexivity).
    apply filter_In in Hin as [Hin Hother].
    apply list_elem_of_In, elem_of_referencingFiles in Hin as (ref & Hin & Hdef & Hname).
    exists ref. split; [exact Hin |]. split; [exact Hdef |].
    apply negb_true_iff, String.eqb_neq in Hother. congruence.
  - intros (ref & Hin & Hdef & Hother).
    assert (Hfile : In (ReferenceEntry.fileName ref)
                       (List.filter (fun file => negb (String.eqb file filePath)) files)).
    { apply filter_In. split.
      - apply list_elem_of_In, elem_of_referencingFiles. eauto.
      - apply negb_true_iff, String.eqb_neq. exact Hother. }
    destruct (List.filter _ files); [contradiction | reflexivity].
Qed.

(** [findUnusedMembers] returns exactly the given members that are not
    tagged [@public] and whose every known reference is a definition:
    one reference that is not, in the declaring file or elsewhere, keeps
    a member out. *)
Theorem findUnusedMembers_iff_unreferenced (filePath : string)
    (members : list SerializableExportMember) (p : ProjectPrincipal)
    (member : SerializableExportMember) :
  member ∈ (findUnusedMembers filePath members p).1 <->
  member ∈ members
  /\ Js.includes (member_jsDocTags member) "@public" = false
  /\ forall ref,
       ref ∈ flat_map references (default [] (finderOf p filePath (member_pos member))) ->
       Js.truthyFlag (ReferenceEntry.isDefinition ref) = true.
Proof.
  unfold findUnusedMembers.
  destruct (ensureFindReferences_spec p) as (Hf & _).
  destruct (ensureFindReferences p) as [f p']. simpl in Hf. subst f. simpl.
  rewrite list_elem_of_In, filter_In, <- list_elem_of_In.
  unfold isUnusedMember.
  set (files := referencingFiles _ _ _).
  assert (Hfiles : files = [] <->
            forall ref,
              ref ∈ flat_map references
                      (default [] (finderOf p filePath (member_pos member))) ->
              Js.truthyFlag (ReferenceEntry.isDefinition ref) = true).
  { unfold files, referencingFiles. split.
    - intros Hnil ref Hin. apply map_eq_nil in Hnil.
      rewrite filter_nil_iff in Hnil. apply negb_false_iff, Hnil, Hin.
    - intros Hall. assert (List.filter
                   (fun ref => negb (Js.truthyFlag (ReferenceEntry.isDefinition ref)))
                   (flat_map references
                      (default [] (finderOf p filePath (member_pos member)))) = []) as ->;
        [| reflexivity].
      apply filter_nil_iff. intros ref Hin. apply negb_false_iff, Hall, Hin. }
  assert (Hsplit : Nat.eqb (length (List.filter (fun file => negb (String.eqb file filePath)) files)) 0
                   && Nat.eqb (length (List.filter (fun file => String.eqb file filePath) files)) 0
                   = true <-> files = []).
  { rewrite andb_true_iff, !Nat.eqb_eq, !length_zero_iff_nil, !filter_nil_iff. split.
    - intros [Hext Hint]. destruct files as [| file rest]; [reflexivity |].
      assert (Hin : file ∈ file :: rest) by (apply elem_of_cons; auto).
      specialize (Hext file Hin). specialize (Hint file Hin).
      rewrite Hint in Hext. discriminate.
    - intros ->. split; intros x Hx; apply elem_of_nil in Hx; contradiction. }
  destruct (Js.includes (member_jsDocTags member) "@public").
  - split; [intros [_ Hbad]; discriminate | intros (_ & Hbad & _); discriminate].
  - rewrite Hsplit, Hfiles. tauto.
Qed.

(** The language service is created by the first query that needs it
    and kept: after [findUnusedMembers] the principal holds a reference
    finder, the one it held before if it held one, its path sets,
    extensions and program are as before, and later queries leave the
    principal as it is. *)
Theorem findReferences_created_once (filePath : string)
    (members : list SerializableExportMember) (p : ProjectPrincipal) :
  let p' := (findUnusedMembers filePath members p).2 in
  findReferences p' = Some (finderOf p)
  /\ entryPaths p' = entryPaths p
  /\ projectPaths p' = projectPaths p
  /\ skipExportsAnalysis p' = skipExportsAnalysis p
  /\ extensions p' = extensions p
  /\ program p' = program p
  /\ (forall filePath' members', (findUnusedMembers filePath' members' p').2 = p')
  /\ (forall filePath' exportedItem, (hasReferences filePath' exportedItem p').2 = p').
Proof.
  cbv zeta.
  assert (Hstate : forall f m q, (findUnusedMembers f m q).2 = (ensureFindReferences q).2).
  { intros f m q. unfold findUnusedMembers. destruct (ensureFindReferences q). reflexivity. }
  rewrite Hstate.
  destruct (ensureFindReferences_spec p) as (_ & Hf & He & Hp & Hs & Hx & Hprog).
  repeat split; try assumption.
  - intros filePath' members'. rewrite Hstate.
    rewrite (ensureFindReferences_ready _ _ Hf). reflexivity.
  - intros filePath' exportedItem. unfold hasReferences.
    destruct (Js.includes _ _); [reflexivity |].
    rewrite (ensureFindReferences_ready _ _ Hf). reflexivity.
Qed.

End UsageMore.

(** * Further properties of source analysis *)

Section AnalysisMore.

Context {PU : PathUtil} {MU : ModuleUtil}.
Context {ImportMap ExportMap Scripts Compilers : Type}.
Context {B : Backend ImportMap ExportMap Scripts Compilers}.
Context {H : Host}.
Variable virtualFileExtensions : list string.

Import Principal.

Local Abbreviation resolveModule := (Principal.resolveModule virtualFileExtensions).
Local Abbreviation analyzeUnresolved := (Principal.analyzeUnresolved virtualFileExtensions).
Local Abbreviation forEachUnresolved := (Principal.forEachUnresolved virtualFileExtensions).
Local Abbreviation analyzeSourceFile := (Principal.analyzeSourceFile virtualFileExtensions).

Lemma resolveModule_grows cache specifier filePath :
  cache ⊆ (resolveModule cache specifier filePath).1.2.
Proof.
  unfold Principal.resolveModule. rewrite bind_fst.
  destruct (resolveModuleNames_fills virtualFileExtensions [specifier] filePath cache)
    as [Hsub _]. cbv zeta in Hsub.
  destruct (Resolver.resolveModuleNames _ _ _ _).1 as [rs cache']. exact Hsub.
Qed.

(** One import either leaves the principal alone or hands one path to
    [addEntryPath] with export analysis skipped; the cache only grows. *)
Lemma analyzeUnresolved_state filePath st unresolvedImport :
  let st' := (analyzeUnresolved filePath st unresolvedImport).1 in
  resolutionCache st ⊆ resolutionCache st'
  /\ (principal st' = principal st
      \/ exists discovered,
          principal st' = addEntryPath discovered (Some true) (principal st)).
Proof.
  cbv zeta.
  destruct (Js.startsWith (specifier unresolvedImport) "http") eqn:Hhttp.
  { rewrite analyzeUnresolved_http by assumption. simpl. split; [reflexivity | auto]. }
  pose proof (resolveModule_grows (resolutionCache st) (specifier unresolvedImport) filePath)
    as Hgrow.
  destruct (resolveModule (resolutionCache st) (specifier unresolvedImport) filePath)
    as [[[m |] cache'] probes] eqn:Hres; simpl in Hgrow.
  - rewrite (analyzeUnresolved_resolved _ _ _ _ _ _ _ Hhttp Hres).
    destruct (Js.truthyFlag _); simpl; [auto |].
    split; [exact Hgrow |].
    destruct (isGitIgnored _); [auto | right; eauto].
  - rewrite (analyzeUnresolved_failed _ _ _ _ _ _ Hhttp Hres).
    destruct (isStartsLikePackageName _); simpl; auto.
Qed.

Lemma forEachUnresolved_state (P : ProjectPrincipal -> Prop) filePath unresolved st :
  (forall discovered q, P q -> P (addEntryPath discovered (Some true) q)) ->
  P (principal st) ->
  let st' := (forEachUnresolved filePath st unresolved).1 in
  P (principal st') /\ resolutionCache st ⊆ resolutionCache st'.
Proof.
  intros Hstep. revert st. induction unresolved as [| one rest IH]; intros st HP.
  - simpl. split; [exact HP | reflexivity].
  - cbv zeta. rewrite forEachUnresolved_cons.
    destruct (analyzeUnresolved_state filePath st one) as [Hcache Hprincipal].
    cbv zeta in Hcache, Hprincipal.
    destruct (IH (analyzeUnresolved filePath st one).1) as [HP' Hcache'].
    { destruct Hprincipal as [-> | [discovered ->]]; [exact HP | apply Hstep, HP]. }
    split; [exact HP' | etrans; eassumption].
Qed.

Lemma forEachUnresolved_sublist filePath unresolved st :
  exists added,
    unresolvedImports (forEachUnresolved filePath st unresolved).1
    = unresolvedImports st ++ added
    /\ added `sublist_of` unresolved.
Proof.
  revert st. induction unresolved as [| one rest IH]; intros st.
  - exists []. simpl. rewrite app_nil_r. split; [reflexivity | constructor].
  - rewrite forEachUnresolved_cons.
    destruct (IH (analyzeUnresolved filePath st one).1) as (added & Heq & Hsub).
    destruct (analyzeUnresolved_reported virtualFileExtensions filePath st one)
      as [[Hsame | [Happ _]] _]; cbv zeta in *.
    + exists added. rewrite Heq, Hsame. split; [reflexivity |].
      apply sublist_cons, Hsub.
    + exists (one :: added). rewrite Heq, Happ, <- app_assoc. split; [reflexivity |].
      apply sublist_skip, Hsub.
Qed.

Lemma analyzeSourceFile_returns filePath p cache sourceFile :
  getSourceFile filePath = Some sourceFile ->
  exists found p' cache',
    (analyzeSourceFile filePath p cache).1 = inr (found, p', cache').
Proof.
  intros Hsource. unfold Principal.analyzeSourceFile. rewrite Hsource, bind_fst.
  eauto.
Qed.

(** [analyzeSourceFile] throws exactly when the file manager has no
    source file for the path; the message names the path and nothing
    has been asked of the host by then. *)
Theorem analyzeSourceFile_throws_iff_missing (filePath : string)
    (p : ProjectPrincipal) (cache : gmap string (option ResolvedModuleFull)) :
  (getSourceFile filePath = None <->
   exists message, (analyzeSourceFile filePath p cache).1 = inl message)
  /\ (getSourceFile filePath = None ->
      analyzeSourceFile filePath p cache = (inl ("Unable to find " +:+ filePath), [])).
Proof.
  unfold Principal.analyzeSourceFile.
  destruct (getSourceFile filePath) as [sourceFile |].
  - split; [| discriminate]. split; [discriminate |].
    intros [message Hbad]. rewrite bind_fst in Hbad. discriminate.
  - split; [| reflexivity]. split; [eauto | reflexivity].
Qed.

(** What [analyzeSourceFile] does to the principal and the cache: every
    path set keeps what it had, an entry path that is new is also
    marked to have its exports skipped, the invariant of the path sets
    is kept, the accepted extensions, the program and the reference
    finder are not touched, and the cache keeps every entry it had. *)
Theorem analyzeSourceFile_state (filePath : string) (p : ProjectPrincipal)
    (cache : gmap string (option ResolvedModuleFull)) found p' cache' :
  (analyzeSourceFile filePath p cache).1 = inr (found, p', cache') ->
  entryPaths p ⊆ entryPaths p'
  /\ projectPaths p ⊆ projectPaths p'
  /\ skipExportsAnalysis p ⊆ skipExportsAnalysis p'
  /\ (forall discovered,
        discovered ∈ entryPaths p' ->
        discovered ∈ entryPaths p \/ discovered ∈ skipExportsAnalysis p')
  /\ (wellFormed p -> wellFormed p')
  /\ extensions p' = extensions p
  /\ program p' = program p
  /\ findReferences p' = findReferences p
  /\ cache ⊆ cache'.
Proof.
  unfold Principal.analyzeSourceFile.
  destruct (getSourceFile filePath) as [sourceFile |]; [| discriminate].
  rewrite bind_fst. simpl. intros Hout. injection Hout as _ <- <-.
  set (P := fun q : ProjectPrincipal =>
              entryPaths p ⊆ entryPaths q
              /\ projectPaths p ⊆ projectPaths q
              /\ skipExportsAnalysis p ⊆ skipExportsAnalysis q
              /\ (forall discovered,
                    discovered ∈ entryPaths q ->
                    discovered ∈ entryPaths p \/ discovered ∈ skipExportsAnalysis q)
              /\ (wellFormed p -> wellFormed q)
              /\ extensions q = extensions p
              /\ program q = program p
              /\ findReferences q = findReferences p).
  match goal with
  | |- context [Principal.forEachUnresolved _ _ ?st ?l] =>
      destruct (forEachUnresolved_state P filePath l st) as [HP Hcache]
  end.
  - intros discovered q HPq.
    pose proof (addEntryPath_wellFormed discovered (Some true) q) as Hkeep.
    unfold addEntryPath in Hkeep |- *.
    destruct (negb _ && _) eqn:Hok; [| exact HPq].
    destruct HPq as (H1 & H2 & H3 & H4 & H5 & H6 & H7 & H8).
    unfold P. simpl.
    split; [intros x Hx; apply elem_of_add; right; apply H1, Hx |].
    split; [intros x Hx; apply elem_of_add; right; apply H2, Hx |].
    split; [intros x Hx; apply elem_of_add; right; apply H3, Hx |].
    split.
    { intros x Hx. apply elem_of_add in Hx as [-> | Hx].
      - right. apply elem_of_add. left. reflexivity.
      - destruct (H4 x Hx) as [Hold | Hskip]; [left; exact Hold |].
        right. apply elem_of_add. right. exact Hskip. }
    split; [intros Hwf; apply Hkeep, H5, Hwf |].
    split; [exact H6 |]. split; [exact H7 | exact H8].
  - simpl. unfold P.
    split; [reflexivity |]. split; [reflexivity |]. split; [reflexivity |].
    split; [auto |]. split; [auto |]. split; [reflexivity |]. split; reflexivity.
  - simpl in HP, Hcache. destruct HP as (H1 & H2 & H3 & H4 & H5 & H6 & H7 & H8).
    split; [exact H1 |]. split; [exact H2 |]. split; [exact H3 |]. split; [exact H4 |].
    split; [exact H5 |]. split; [exact H6 |]. split; [exact H7 |]. split; [exact H8 |].
    exact Hcache.
Qed.

(** What [analyzeSourceFile] returns beside the unresolved imports: the
    internal imports, exports and scripts are those of the walk over
    the syntax tree, the external set keeps what the walk found, and
    the unresolved imports are some of those the walk found, in the
    walk's order. *)
Theorem analyzeSourceFile_passes_through (filePath : string) (p : ProjectPrincipal)
    (cache : gmap string (option ResolvedModuleFull)) found p' cache' :
  (analyzeSourceFile filePath p cache).1 = inr (found, p', cache') ->
  exists sourceFile,
    getSourceFile filePath = Some sourceFile
    /\ let walked :=
         _getImportsAndExports sourceFile (program p)
           (Js.includes (skipExportsAnalysis p) filePath) in
       internal found = internal walked
       /\ exports found = exports walked
       /\ scripts found = scripts walked
       /\ external walked ⊆ external found
       /\ unresolved found `sublist_of` unresolved walked.
Proof.
  unfold Principal.analyzeSourceFile.
  destruct (getSourceFile filePath) as [sourceFile |]; [| discriminate].
  rewrite bind_fst. simpl. intros Hout. injection Hout as <- _ _.
  exists sourceFile. split; [reflexivity |]. cbv zeta. simpl.
  repeat split.
  - match goal with
    | |- _ ⊆ externalImports (Principal.forEachUnresolved _ _ ?st ?l).1 =>
        destruct (forEachUnresolved_reported virtualFileExtensions filePath l st)
          as (_ & Hext & _)
    end.
    exact Hext.
  - match goal with
    | |- unresolvedImports (Principal.forEachUnresolved _ _ ?st ?l).1 `sublist_of` _ =>
        destruct (forEachUnresolved_sublist filePath l st) as (added & -> & Hsub)
    end.
    exact Hsub.
Qed.

(** No import of a [.json] file and no import that would lie at an
    ignored path next to the importing file is among the unresolved
    imports that [analyzeSourceFile] returns. *)
Theorem json_and_ignored_not_reported (filePath : string) (p : ProjectPrincipal)
    (cache : gmap string (option ResolvedModuleFull)) found p' cache'
    (unresolvedImport : UnresolvedImport) :
  (analyzeSourceFile filePath p cache).1 = inr (found, p', cache') ->
  unresolvedImport ∈ unresolved found ->
  let sanitizedSpecifier := sanitizeSpecifier (specifier unresolvedImport) in
  extname sanitizedSpecifier <> ".json"
  /\ isGitIgnored (join (dirname filePath) sanitizedSpecifier) = false.
Proof.
  intros Hout Hin. cbv zeta.
  pose proof (analyzeSourceFile_reported _ _ _ _ _ _ _ Hout _ Hin) as Hrep.
  unfold reportable in Hrep.
  apply andb_true_iff in Hrep as [Hrep Hext].
  apply andb_true_iff in Hrep as [_ Hignored].
  apply negb_true_iff in Hignored. split; [| exact Hignored].
  intros Hjson. rewrite Hjson in Hext. discriminate.
Qed.

(** An import that the resolver, asked again, finds in an external
    library puts its sanitized specifier into the external set, where
    it stays to the end of the loop; the principal and the reported set
    are left alone. *)
Theorem external_library_import (filePath : string) (st : Analysis)
    (unresolvedImport : UnresolvedImport) (rest : list UnresolvedImport)
    (m : ResolvedModuleFull) cache' probes :
  Js.startsWith (specifier unresolvedImport) "http" = false ->
  resolveModule (resolutionCache st) (specifier unresolvedImport) filePath
  = ((Some m, cache'), probes) ->
  Js.truthyFlag (isExternalLibraryImport m) = true ->
  let st' := (analyzeUnresolved filePath st unresolvedImport).1 in
  sanitizeSpecifier (specifier unresolvedImport) ∈ externalImports st'
  /\ principal st' = principal st
  /\ unresolvedImports st' = unresolvedImports st
  /\ sanitizeSpecifier (specifier unresolvedImport)
     ∈ externalImports (forEachUnresolved filePath st (unresolvedImport :: rest)).1.
Proof.
  intros Hhttp Hres Hexternal. cbv zeta.
  pose proof (analyzeUnresolved_resolved _ _ _ _ _ _ _ Hhttp Hres) as Hstep.
  rewrite Hexternal in Hstep.
  assert (Hnow : sanitizeSpecifier (specifier unresolvedImport)
                 ∈ externalImports (analyzeUnresolved filePath st unresolvedImport).1).
  { rewrite Hstep. simpl. apply elem_of_add. left. reflexivity. }
  split; [exact Hnow |].
  split; [rewrite Hstep; reflexivity |].
  split; [rewrite Hstep; reflexivity |].
  rewrite forEachUnresolved_cons.
  destruct (forEachUnresolved_reported virtualFileExtensions filePath rest
              (analyzeUnresolved filePath st unresolvedImport).1) as (_ & Hext & _).
  apply Hext, Hnow.
Qed.

End AnalysisMore.

(** * Gitignore patterns *)

Section GlobFacts.

Import Glob.

Lemma prefix_empty (s : string) : String.prefix "" s = true.
Proof. destruct s; reflexivity. Qed.

Lemma prefix_append (p s : string) : String.prefix p (p +:+ s) = true.
Proof.
  induction p as [| c p IH]; simpl; [apply prefix_empty |].
  destruct (ascii_dec c c); [exact IH | congruence].
Qed.

Lemma prefix_append_cancel (p a s : string) :
  String.prefix (p +:+ a) (p +:+ s) = String.prefix a s.
Proof.
  induction p as [| c p IH]; simpl; [reflexivity |].
  destruct (ascii_dec c c); [exact IH | congruence].
Qed.

Lemma rev_app_append (a b acc : string) :
  String.rev_app (a +:+ b) acc = String.rev_app b (String.rev_app a acc).
Proof. revert acc. induction a as [| c a IH]; intros acc; simpl; [reflexivity | apply IH]. Qed.

Lemma rev_app_tail (a b c : string) :
  String.rev_app a (b +:+ c) = String.rev_app a b +:+ c.
Proof.
  revert b. induction a as [| x a IH]; intros b; simpl; [reflexivity |].
  apply (IH (String x b)).
Qed.

Lemma rev_app_acc (a acc : string) : String.rev_app a acc = String.rev a +:+ acc.
Proof. unfold String.rev. rewrite <- rev_app_tail. reflexivity. Qed.

Lemma rev_append (a b : string) : String.rev (a +:+ b) = String.rev b +:+ String.rev a.
Proof. unfold String.rev at 1. rewrite rev_app_append, rev_app_acc. reflexivity. Qed.

Lemma endsWith_append (s suffix : string) : Js.endsWith (s +:+ suffix) suffix = true.
Proof. unfold Js.endsWith. rewrite rev_append. apply prefix_append. Qed.

Lemma endsWith_append_both (s a b : string) :
  Js.endsWith (s +:+ b) (a +:+ b) = Js.endsWith s a.
Proof. unfold Js.endsWith. rewrite !rev_append. apply prefix_append_cancel. Qed.

Lemma startsWith_self (s : string) : Js.startsWith s s = true.
Proof.
  unfold Js.startsWith. induction s as [| c s IH]; simpl; [reflexivity |].
  destruct (ascii_dec c c); [exact IH | congruence].
Qed.

Lemma startsWith_append (s t : string) : Js.startsWith (s +:+ t) s = true.
Proof. apply prefix_append. Qed.

Lemma negated_by_bang (pattern : string) :
  match pattern with String "!"%char _ => true | _ => false end
  = Js.startsWith pattern "!".
Proof.
  destruct pattern as [| c rest]; [reflexivity |].
  destruct rest; destruct c as [[] [] [] [] [] [] [] []]; reflexivity.
Qed.

(** Every gitignore line becomes two glob patterns: the second begins
    with the first and ends in [/*] or [/**], so it covers what lies
    below whatever the first one matches. *)
Theorem convertGitignoreToPicomatch_shape (pattern : string) :
  exists base below,
    patterns (convertGitignoreToPicomatch pattern) = [base; below]
    /\ Js.startsWith below base = true
    /\ (Js.endsWith below "/*" = true \/ Js.endsWith below "/**" = true).
Proof.
  unfold convertGitignoreToPicomatch. cbv zeta.
  match goal with
  | |- context [[?b; _]] => set (base := b)
  end.
  exists base. eexists. split; [reflexivity |].
  destruct (Js.endsWith base "/*") eqn:Hstar.
  - split; [apply startsWith_self | left; exact Hstar].
  - destruct (Js.endsWith base "/") eqn:Hslash.
    + split; [apply startsWith_append |]. right.
      change "/**" with ("/" +:+ "**"). rewrite endsWith_append_both. exact Hslash.
    + split; [apply startsWith_append |]. right. apply endsWith_append.
Qed.

(** A leading [!] only sets the negation flag: the patterns of a negated
    line are those of the line without it. *)
Theorem convertGitignoreToPicomatch_negation (pattern : string) :
  Js.startsWith pattern "!" = false ->
  negated (convertGitignoreToPicomatch pattern) = false
  /\ convertGitignoreToPicomatch ("!" +:+ pattern)
     = {| negated := true; patterns := patterns (convertGitignoreToPicomatch pattern) |}.
Proof.
  intros Hplain. unfold convertGitignoreToPicomatch.
  rewrite (negated_by_bang pattern), Hplain. split; reflexivity.
Qed.

(** A leading slash anchors a line and is dropped, nothing being put in
    its place; a line without one (and without a leading [!] or
    [*/**/]) is made to match at any depth, by a [**/] prefix unless it
    has one already. *)
Theorem convertGitignoreToPicomatch_anchoring :
  (forall rest,
      head (patterns (convertGitignoreToPicomatch ("/" +:+ rest))) = Some rest)
  /\ (forall pattern,
        Js.startsWith pattern "!" = false ->
        Js.startsWith pattern "*/**/" = false ->
        Js.startsWith pattern "/" = false ->
        head (patterns (convertGitignoreToPicomatch pattern))
        = Some (if Js.startsWith pattern "**/" then pattern else "**/" +:+ pattern)).
Proof.
  split.
  - intros rest. unfold convertGitignoreToPicomatch. simpl.
    unfold Js.startsWith. simpl. rewrite prefix_empty. reflexivity.
  - intros pattern Hbang Hdeep Hroot. unfold convertGitignoreToPicomatch.
    rewrite (negated_by_bang pattern), Hbang. cbv zeta iota.
    rewrite Hdeep, Hroot. simpl.
    destruct (Js.startsWith pattern "**/"); reflexivity.
Qed.

End GlobFacts.

(** * Commitlint configurations *)

Section CommitlintFacts.

Import Commitlint.

(** Every id a configuration extends is among the dependencies
    [resolveConfig] returns, as a package name: an id that starts with
    [@] or [commitlint-config-] as it is, any other with
    [commitlint-config-] put before it; such a name is not changed by
    being converted again. *)
Theorem extends_become_packages (config : CommitLintConfig) :
  (forall ids id,
      extends config = Some (Many ids) -> id ∈ ids ->
      toConfigPackage id ∈ resolveConfig config)
  /\ (forall id,
        extends config = Some (One id) -> id <> "" ->
        toConfigPackage id ∈ resolveConfig config)
  /\ (forall id,
        Js.startsWith (toConfigPackage id) "@"
        || Js.startsWith (toConfigPackage id) "commitlint-config-" = true
        /\ toConfigPackage (toConfigPackage id) = toConfigPackage id).
Proof.
  assert (Hshape : forall id,
             Js.startsWith (toConfigPackage id) "@"
             || Js.startsWith (toConfigPackage id) "commitlint-config-" = true).
  { intros id. unfold toConfigPackage.
    destruct (Js.startsWith id "@" || Js.startsWith id "commitlint-config-") eqn:Hid;
      [exact Hid |].
    apply orb_true_iff. right. apply (prefix_append "commitlint-config-" id). }
  split; [| split].
  - intros ids id Hextends Hin. unfold resolveConfig. rewrite Hextends.
    apply elem_of_app. left. apply list_elem_of_In, in_map, list_elem_of_In, Hin.
  - intros id Hextends Hid. unfold resolveConfig. rewrite Hextends.
    destruct id; [congruence |]. simpl Js.truthy. cbv iota.
    apply elem_of_app. left. apply elem_of_cons. left. reflexivity.
  - intros id. split; [apply Hshape |].
    unfold toConfigPackage at 1. rewrite Hshape. reflexivity.
Qed.

End CommitlintFacts.

(** * The further properties on the sample project *)

Import Sample.

Local Existing Instance posix.
Local Existing Instance moduleUtil.
Local Existing Instance smallCompiler.

Local Abbreviation vfe := compilerExtensions.
Local Abbreviation index := "/p/src/index.ts".
Local Abbreviation small := "/p/src/small.ts".

(** [./util] asked from two files of [/p/src] is resolved once. *)
Lemma relative_specifier_shared_witness :
  let out := (Resolver.resolveModuleNames (H:=project) vfe ∅ ["./util"] index).1 in
  Resolver.resolveModuleNames (H:=host [] [] []) vfe out.2 ["./util"] "/p/src/other.ts"
  = ((out.1, out.2), []).
Proof.
  cbv zeta.
  apply (relative_specifier_shared vfe project (host [] [] []) ∅ "./util"
           index "/p/src/other.ts"); vm_compute; reflexivity.
Defined.

(** [./util] is found by [resolve.sync] as [/p/src/util.ts]. *)
Lemma resolve_sync_wins_witness :
  Resolver.resolveModuleName (H:=project) vfe "./util" index
  = (Some {| resolvedFileName := "/p/src/util.ts";
             extension := ".ts";
             isExternalLibraryImport := Some false;
             resolvedUsingTsExtension := Some false |},
     [ProbeResolveSync "./util" "/p/src"]).
Proof.
  rewrite (resolve_sync_wins (H:=project) vfe "./util" index "/p/src/util.ts");
    vm_compute; reflexivity.
Defined.

(** [./missing] is unresolved, and indeed nothing finds it. *)
Lemma unresolved_only_if_all_fail_witness :
  @resolve_sync project "./missing" "/p/src" (Resolver.extensions vfe) = None
  /\ @ts_resolveModuleName project CustomSys "./missing" index = None
  /\ @existsSync project "/p/src/missing" = false.
Proof.
  destruct (unresolved_only_if_all_fail (H:=project) vfe "./missing" index)
    as [[Hbad | Hbad] | Hall].
  - vm_compute. reflexivity.
  - vm_compute in Hbad. discriminate.
  - vm_compute in Hbad. discriminate.
  - exact Hall.
Defined.

(** Once the [.vue] compiler is registered again, a component outside
    [node_modules] is accepted. *)
Lemma addCompilers_accepts_witness :
  "/p/src/App.vue"
  ∈ entryPaths (Principal.addEntryPath "/p/src/App.vue" None
                  (Principal.addCompilers [".vue"] principal0)).
Proof.
  destruct (addCompilers_accepts (B:=smallCompiler) [".vue"] "/p/src/App.vue" None principal0)
    as (_ & _ & _ & Hentry & _).
  - apply includes_true. vm_compute. reflexivity.
  - vm_compute. reflexivity.
  - exact Hentry.
Defined.

(** No program has been built for the sample principal yet. *)
Lemma getUnreferencedFiles_without_program_witness :
  Principal.getUnreferencedFiles principal0 = [index; "/p/src/unused.ts"].
Proof.
  rewrite (getUnreferencedFiles_without_program principal0); reflexivity.
Defined.

(** The sample program holds its roots. *)
Lemma entry_paths_are_used_witness :
  entryPaths principal0 ⊆ (Principal.getUsedResolvedFiles principal0).1.
Proof.
  destruct (entry_paths_are_used (B:=smallCompiler) principal0) as [Hused _].
  - intros x Hx. replace (entryPaths principal0) with [index] in Hx by reflexivity.
    apply list_elem_of_singleton in Hx as ->.
    apply includes_true. vm_compute. reflexivity.
  - intros x Hx. replace (entryPaths principal0) with [index] in Hx by reflexivity.
    apply list_elem_of_singleton in Hx as ->.
    apply includes_true. vm_compute. reflexivity.
  - exact Hused.
Defined.

(** The untagged export at position 13 of [/p/src/lib.ts] is referenced
    from the index file. *)
Lemma hasReferences_iff_external_reference_witness :
  (Principal.hasReferences "/p/src/lib.ts" plainExport principal0).1 = true.
Proof.
  apply (hasReferences_iff_external_reference (B:=smallCompiler) "/p/src/lib.ts"
           plainExport principal0); [vm_compute; reflexivity |].
  exists {| ReferenceEntry.fileName := index; ReferenceEntry.isDefinition := None |}.
  split; [| split; [reflexivity | discriminate]].
  apply list_elem_of_In. vm_compute. right. left. reflexivity.
Defined.

(** A file the file manager does not know. *)
Lemma analyzeSourceFile_throws_iff_missing_witness :
  Principal.analyzeSourceFile (H:=project) vfe "/p/src/nowhere.ts" principal0 ∅
  = (inl "Unable to find /p/src/nowhere.ts", []).
Proof.
  destruct (analyzeSourceFile_throws_iff_missing (H:=project) vfe
              "/p/src/nowhere.ts" principal0 ∅) as [_ Hthrow].
  apply Hthrow. vm_compute. reflexivity.
Defined.

(** The analysis of the small file keeps the entry the principal had
    and marks the one it adds. *)
Lemma analyzeSourceFile_state_witness :
  exists found p' cache',
    (Principal.analyzeSourceFile (H:=project) vfe small principal0 ∅).1
    = inr (found, p', cache')
    /\ entryPaths principal0 ⊆ entryPaths p'
    /\ (forall discovered,
          discovered ∈ entryPaths p' ->
          discovered ∈ entryPaths principal0 \/ discovered ∈ skipExportsAnalysis p')
    /\ extensions p' = extensions principal0.
Proof.
  destruct (analyzeSourceFile_returns (H:=project) vfe small principal0 ∅
              {| fileName := small |}) as (found & p' & cache' & Hout);
    [reflexivity |].
  exists found, p', cache'. split; [exact Hout |].
  destruct (analyzeSourceFile_state (H:=project) vfe small principal0 ∅ _ _ _ Hout)
    as (Hentry & _ & _ & Hnew & _ & Hext & _).
  split; [exact Hentry |]. split; [exact Hnew | exact Hext].
Defined.

(** The imports reported for the small file are among those the walk
    found. *)
Lemma analyzeSourceFile_passes_through_witness :
  exists found p' cache',
    (Principal.analyzeSourceFile (H:=project) vfe small principal0 ∅).1
    = inr (found, p', cache')
    /\ unresolved found `sublist_of` smallImports.
Proof.
  destruct (analyzeSourceFile_returns (H:=project) vfe small principal0 ∅
              {| fileName := small |}) as (found & p' & cache' & Hout);
    [reflexivity |].
  exists found, p', cache'. split; [exact Hout |].
  destruct (analyzeSourceFile_passes_through (H:=project) vfe small principal0 ∅ _ _ _ Hout)
    as (sourceFile & Hsource & Hwalk).
  cbv zeta in Hwalk. destruct Hwalk as (_ & _ & _ & _ & Hsub).
  assert (sourceFile = {| fileName := small |}) as -> by (vm_compute in Hsource; congruence).
  exact Hsub.
Defined.

(** [./missing] is reported: it is no [.json] import and its path is
    not ignored. *)
Lemma json_and_ignored_not_reported_witness :
  extname (sanitizeSpecifier "./missing") <> ".json"
  /\ isGitIgnored (join (dirname small) (sanitizeSpecifier "./missing")) = false.
Proof.
  eapply (json_and_ignored_not_reported (H:=project) vfe small principal0 ∅
            _ _ _ (import "./missing" 0)).
  - vm_compute. reflexivity.
  - simpl. apply list_elem_of_singleton. reflexivity.
Defined.

(** [lodash] resolves into [node_modules] and becomes an external
    import. *)
Lemma external_library_import_witness :
  "lodash"
  ∈ Principal.externalImports
      (Principal.analyzeUnresolved (H:=projectWithLibrary) vfe index start
         (import "lodash" 12)).1.
Proof.
  destruct (external_library_import (H:=projectWithLibrary) vfe index start
              (import "lodash" 12) [] libraryModule
              (Principal.resolveModule (H:=projectWithLibrary) vfe ∅ "lodash" index).1.2
              (Principal.resolveModule (H:=projectWithLibrary) vfe ∅ "lodash" index).2)
    as (Hexternal & _); try (vm_compute; reflexivity).
  exact Hexternal.
Defined.

(** [dist] and [!dist] give the same patterns. *)
Lemma convertGitignoreToPicomatch_negation_witness :
  Glob.convertGitignoreToPicomatch "!dist"
  = {| Glob.negated := true; Glob.patterns := ["**/dist"; "**/dist/**"] |}.
Proof.
  destruct (convertGitignoreToPicomatch_negation "dist") as [_ Hneg];
    [reflexivity |].
  exact Hneg.
Defined.

(** [build] matches at any depth. *)
Lemma convertGitignoreToPicomatch_anchoring_witness :
  head (Glob.patterns (Glob.convertGitignoreToPicomatch "build")) = Some "**/build".
Proof.
  destruct convertGitignoreToPicomatch_anchoring as [_ Hfree].
  apply (Hfree "build"); reflexivity.
Defined.

(** The short id [conventional] names the package
    [commitlint-config-conventional]. *)
Lemma extends_become_packages_witness :
  "commitlint-config-conventional" ∈ Commitlint.resolveConfig commitlintConfig.
Proof.
  destruct (extends_become_packages commitlintConfig) as [Hmany _].
  apply (Hmany ["conventional"; "@acme/commitlint"] "conventional"); [reflexivity |].
  apply elem_of_cons. left. reflexivity.
Defined.

